(** * Purchase ledger and webhook relay of the Polar payments backend

    A shallow embedding of the backend's billing code:

    - [billing.plan.ts]     the closed set of plans and its type guard;
    - [billing.service.ts]  the in-memory purchase store, the product to plan
                            map and the operations exported over them;
    - [billing.webhooks.ts] the webhook endpoint: secret check, verification
                            through the provider's SDK, dispatch on the type;
    - [billing.rpc.ts]      the checkout endpoint with its duplicate gate;
    - [index.ts]            start-up and the purchases query route.

    The two module-level [Map]s, [process.env] and the trace of calls made
    to the payment provider form one [World]; every function of the source
    is a computation over it that either returns or throws.  [console.*]
    calls write nothing the code reads back and are left out; each one is
    marked by a comment where it stands in the source.  The provider's SDK
    ([validateEvent], [polar.checkouts.create]) is not part of the backend:
    it enters as a variable of the section that holds the two endpoints.
    The webhook module is written once over the handlers it imports and
    then linked with those of the service, so that which handler it calls
    can be stated even where the handler itself changes nothing. *)

From stdpp Require Import gmap strings list.
From Stdlib Require Import ZArith.

Local Open Scope string_scope.
Local Open Scope list_scope.
Set Warnings "-register-all".

(** ** billing.plan.ts *)

(** [type PlanId = "pro" | "master"] *)
Inductive PlanId : Type := pro | master.

#[global] Instance PlanId_eq_dec : EqDecision PlanId.
Proof. solve_decision. Defined.

Definition PlanId_to_string (p : PlanId) : string :=
  match p with pro => "pro" | master => "master" end.

(** Values as they come out of [JSON.parse]; the property list of an object
    holds each key once. *)
Inductive Json : Type :=
| JNull
| JBool (b : bool)
| JNum (n : Z)
| JStr (s : string)
| JArr (items : list Json)
| JObj (props : list (string * Json)).

(** A JavaScript value that may be [undefined]. *)
Abbreviation JsValue := (option Json).

(** [isValidPlan(plan): plan is PlanId], the test
    [plan === "pro" || plan === "master"].  The guard narrows its argument,
    so the model hands back the narrowed plan: [Some _] stands for [true]. *)
Definition isValidPlan (plan : JsValue) : option PlanId :=
  match plan with
  | Some (JStr s) =>
      if decide (s = "pro") then Some pro
      else if decide (s = "master") then Some master
      else None
  | _ => None
  end.

(** ** billing.service.ts: the data *)

Inductive Status : Type := active | canceled | revoked.

#[global] Instance Status_eq_dec : EqDecision Status.
Proof. solve_decision. Defined.

(** [interface Purchase]; the field [oderId] is spelled as in the source.
    [purchasedAt] is a [Date], kept as its time value. *)
Module Purchase.
Record t : Type := mk {
  oderId : string;
  customerId : string;
  productId : string;
  planId : PlanId;
  purchasedAt : Z;
  status : Status
}.

(** [purchase.status = s], the one field the code assigns to. *)
Definition set_status (s : Status) (p : t) : t :=
  mk (oderId p) (customerId p) (productId p) (planId p) (purchasedAt p) s.
End Purchase.

(** The argument of [polar.checkouts.create]. *)
Record CheckoutCreate : Type := mkCheckoutCreate {
  products : list string;
  externalCustomerId : string;
  successUrl : string;
  returnUrl : string
}.

(** What the process holds and what it has done to the outside:
    - [env]               [process.env]; absent keys read [undefined];
    - [purchaseStore]     [new Map<string, Purchase[]>()], customer to purchases;
    - [productToPlanMap]  [new Map<string, PlanId>()];
    - [polarCheckouts]    the checkout sessions asked of the provider, oldest first. *)
Record World : Type := mkWorld {
  env : gmap string string;
  purchaseStore : gmap string (list Purchase.t);
  productToPlanMap : gmap string PlanId;
  polarCheckouts : list CheckoutCreate
}.

Definition with_purchaseStore (f : gmap string (list Purchase.t) -> gmap string (list Purchase.t))
    (w : World) : World :=
  mkWorld (env w) (f (purchaseStore w)) (productToPlanMap w) (polarCheckouts w).

Definition with_productToPlanMap (f : gmap string PlanId -> gmap string PlanId)
    (w : World) : World :=
  mkWorld (env w) (purchaseStore w) (f (productToPlanMap w)) (polarCheckouts w).

Definition with_polarCheckouts (f : list CheckoutCreate -> list CheckoutCreate)
    (w : World) : World :=
  mkWorld (env w) (purchaseStore w) (productToPlanMap w) (f (polarCheckouts w)).

(** A freshly started process: both maps empty, nothing asked of the provider. *)
Definition fresh (e : gmap string string) : World := mkWorld e ∅ ∅ [].

(** ** Computations that return or throw *)

Inductive Exception : Type :=
| WebhookVerificationError (message : string)
| Error (message : string)
| OtherException (name : string).

Inductive Completion (A : Type) : Type :=
| Normal (a : A)
| Throw (e : Exception).
Arguments Normal {A} a.
Arguments Throw {A} e.

(** A computation runs in a world and leaves a world, also when it throws:
    what it wrote before the [throw] stays written. *)
Definition M (A : Type) : Type := World -> Completion A * World.

#[global] Instance M_ret : MRet M := fun A a w => (Normal a, w).

#[global] Instance M_bind : MBind M := fun A B f m w =>
  match m w with
  | (Normal a, w') => f a w'
  | (Throw e, w') => (Throw e, w')
  end.

Definition gets {A : Type} (f : World -> A) : M A := fun w => (Normal (f w), w).
Definition modify (f : World -> World) : M unit := fun w => (Normal tt, f w).
Definition throw {A : Type} (e : Exception) : M A := fun w => (Throw e, w).

(** A completion handed over by the outside (an awaited promise, an SDK call). *)
Definition settle {A : Type} (c : Completion A) : M A := fun w => (c, w).

(** The world a computation leaves, whether it returned or threw. *)
Definition exec {A : Type} (m : M A) (w : World) : World := (m w).2.

(** Truthiness of a [string | undefined]: defined and not empty.  [Some s]
    is the truthy string itself, [None] a falsy value. *)
Definition truthy (v : option string) : option string :=
  match v with
  | Some s => if decide (s = "") then None else Some s
  | None => None
  end.

(** [process.env.NAME] *)
Definition process_env (name : string) : M (option string) :=
  gets (fun w => env w !! name).

(** ** billing.service.ts: the operations *)

(** [initProductPlanMapping()] *)
Definition initProductPlanMapping : M unit :=
  proProductId ← process_env "POLAR_PRO_PRODUCT_ID";
  masterProductId ← process_env "POLAR_MASTER_PRODUCT_ID";
  (match truthy proProductId with
   | Some proProductId => modify (with_productToPlanMap (<[proProductId := pro]>))
   | None => mret tt
   end);;
  match truthy masterProductId with
  | Some masterProductId => modify (with_productToPlanMap (<[masterProductId := master]>))
  | None => mret tt
  end.

(** The callback [(p) => p.planId === planId && p.status === "active"],
    shared by [some], [find] and, through [status] alone, [filter]. *)
Definition active_for (planId : PlanId) (p : Purchase.t) : Prop :=
  Purchase.planId p = planId ∧ Purchase.status p = active.

#[global] Instance active_for_dec planId p : Decision (active_for planId p).
Proof. unfold active_for. apply _. Defined.

(** [purchaseStore.get(customerId) || []]: an array is truthy even when
    empty, so the right operand is taken for an absent key only. *)
Definition get_purchases (customerId : string) : M (list Purchase.t) :=
  gets (fun w => default [] (purchaseStore w !! customerId)).

(** [recordPurchase(customerId, productId, orderId)]; [now] is the time
    [new Date()] reads at this call. *)
Definition recordPurchase (customerId productId orderId : string) (now : Z) : M unit :=
  planId ← gets (fun w => productToPlanMap w !! productId);
  match planId with
  | None => (* console.warn: unknown product id *) mret tt
  | Some planId =>
      let purchase :=
        Purchase.mk orderId customerId productId planId now active in
      existingPurchases ← get_purchases customerId;
      let alreadyPurchased :=
        bool_decide (Exists (active_for planId) existingPurchases) in
      if alreadyPurchased
      then (* console.log: already owns the plan *) mret tt
      else
        (* existingPurchases.push(purchase);
           purchaseStore.set(customerId, existingPurchases) *)
        modify (with_purchaseStore (<[customerId := existingPurchases ++ [purchase]]>))
        (* console.log: recorded *)
  end.

(** [getCustomerPurchases(customerId)].  The array handed back is the stored
    one; nothing in the backend calls this function, so nothing writes
    through it. *)
Definition getCustomerPurchases (customerId : string) : M (list Purchase.t) :=
  get_purchases customerId.

(** [getPurchasedPlanIds(customerId)] *)
Definition getPurchasedPlanIds (customerId : string) : M (list PlanId) :=
  purchases ← get_purchases customerId;
  mret (Purchase.planId <$> filter (fun p => Purchase.status p = active) purchases).

(** [hasPurchasedPlan(customerId, planId)] *)
Definition hasPurchasedPlan (customerId : string) (planId : PlanId) : M bool :=
  purchases ← get_purchases customerId;
  mret (bool_decide (Exists (active_for planId) purchases)).

(** [revokePurchase(customerId, planId)].  [find] hands back the first
    matching object of the stored array itself, so the assignment to its
    [status] is seen under [customerId] at the position it was found. *)
Definition revokePurchase (customerId : string) (planId : PlanId) : M unit :=
  purchases ← get_purchases customerId;
  match list_find (active_for planId) purchases with
  | Some (i, purchase) =>
      modify (with_purchaseStore
                (<[customerId := <[i := Purchase.set_status revoked purchase]> purchases]>))
      (* console.log: revoked *)
  | None => mret tt
  end.

(** [onSubscriptionActive(customerId, productId?, subscriptionId?)]; an
    argument left out reads [undefined]. *)
Definition onSubscriptionActive (customerId : string)
    (productId subscriptionId : option string) (now : Z) : M unit :=
  match truthy productId, truthy subscriptionId with
  | Some productId, Some subscriptionId =>
      recordPurchase customerId productId subscriptionId now
  | _, _ => mret tt
  end.
  (* console.log: the activation banner *)

(** [onSubscriptionCanceled(customerId)]: the cancellation banner only. *)
Definition onSubscriptionCanceled (customerId : string) : M unit := mret tt.

(** [onSubscriptionRevoked(customerId)]: the revocation banner only. *)
Definition onSubscriptionRevoked (customerId : string) : M unit := mret tt.

(** ** The HTTP layer: what a handler reads and what it answers *)

(** The part of Hono's [c.req] the handlers read: [text()], [header(name)],
    [json()] (which rejects on a body that is not JSON) and [param(name)]. *)
Record Request : Type := mkRequest {
  req_text : string;
  req_header : gmap string string;
  req_json : Completion Json;
  req_param : gmap string string
}.

Module Response.
Inductive body_t : Type :=
| Text (s : string)
| JsonBody (j : Json).

Record t : Type := mk { status : nat; body : body_t }.
End Response.

(** [c.text(s, status)] and [c.json(j, status)]; the status defaults to 200. *)
Definition c_text (s : string) (status : nat) : Response.t :=
  Response.mk status (Response.Text s).

Definition c_json (j : Json) (status : nat) : Response.t :=
  Response.mk status (Response.JsonBody j).

(** The three Standard Webhooks headers, under the keys ["webhook-id"],
    ["webhook-timestamp"] and ["webhook-signature"]. *)
Record WebhookHeaders : Type := mkWebhookHeaders {
  webhook_id : string;
  webhook_timestamp : string;
  webhook_signature : string
}.

(** A validated event: its [type] and, of [data], the fields the endpoint
    hands on ([status], [cancelAtPeriodEnd] and [endsAt] are only printed). *)
Module Event.
Record data_t : Type := mkData {
  id : string;
  customerId : string;
  productId : string
}.

Record t : Type := mk { type : string; data : data_t }.
End Event.

(** The checkout session the provider answers with. *)
Record Session : Type := mkSession { url : string }.

(** [body?.planId]: [undefined] on [null] and on anything without that
    property. *)
Definition get_planId (body : Json) : JsValue :=
  match body with
  | JObj props => (list_to_map props : gmap string Json) !! "planId"
  | _ => None
  end.

(** The object [webhookHeaders] the endpoint builds:
    [c.req.header(name) || ""] for each of the three names. *)
Definition webhookHeaders (c : Request) : WebhookHeaders :=
  mkWebhookHeaders
    (default "" (req_header c !! "webhook-id"))
    (default "" (req_header c !! "webhook-timestamp"))
    (default "" (req_header c !! "webhook-signature")).

(** The [case] labels of the endpoint's [switch]. *)
Definition handled_types : list string :=
  ["subscription.active"; "subscription.canceled"; "subscription.created";
   "subscription.updated"; "subscription.revoked"; "checkout.created";
   "checkout.updated"; "order.created"; "order.paid"].

(** The answers of the two endpoints that the properties name. *)
Definition received : Response.t := c_json (JObj [("received", JBool true)]) 200.
Definition invalid_signature : Response.t := c_text "Invalid signature" 401.
Definition invalid_plan : Response.t :=
  c_json (JObj [("error", JStr "Invalid plan selected")]) 400.
Definition already_purchased : Response.t :=
  c_json (JObj [("error", JStr "You have already purchased this plan")]) 400.

(** *** billing.webhooks.ts, over what it imports *)

(** The module is written against three imports: [validateEvent] of the
    SDK and the two handlers of [./billing.service.js].  It is modelled
    once, over any three such functions, so that what the endpoint does
    with a handler does not depend on what that handler happens to do. *)
Section WebhookModule.

Variable validateEvent : string -> WebhookHeaders -> string -> Completion Event.t.
Variable imported_onSubscriptionActive :
  string -> option string -> option string -> Z -> M unit.
Variable imported_onSubscriptionCanceled : string -> M unit.

(** The [switch (event.type)] of the endpoint. *)
Definition dispatch_with (event : Event.t) (now : Z) : M unit :=
  let type := Event.type event in
  if decide (type = "subscription.active") then
    imported_onSubscriptionActive (Event.customerId (Event.data event)) None None now
  else if decide (type = "subscription.canceled") then
    imported_onSubscriptionCanceled (Event.customerId (Event.data event))
  else if decide (type = "subscription.created") then mret tt
  else if decide (type = "subscription.updated") then mret tt
  else if decide (type = "subscription.revoked") then mret tt
  else if decide (type = "checkout.created") then mret tt
  else if decide (type = "checkout.updated") then mret tt
  else if decide (type = "order.created") then mret tt
  else if decide (type = "order.paid") then mret tt
  else (* default: console.log of the unhandled type *) mret tt.

(** [billingWebhooks.post("/api/webhooks/polar", ...)].  The [try] holds
    the call of [validateEvent] alone; both branches of its [catch]
    return from the handler. *)
Definition billingWebhooks_with (c : Request) (now : Z) : M Response.t :=
  let rawBody := req_text c in
  let webhookHeaders := webhookHeaders c in
  webhookSecret ← process_env "POLAR_WEBHOOK_SECRET";
  match truthy webhookSecret with
  | None => mret (c_text "Server misconfigured" 500)
  | Some webhookSecret =>
      match validateEvent rawBody webhookHeaders webhookSecret with
      | Throw (WebhookVerificationError _) => mret invalid_signature
      | Throw _ => mret (c_text "Invalid webhook" 400)
      | Normal event =>
          dispatch_with event now;;
          mret received
      end
  end.

End WebhookModule.

Section Endpoints.

(** [validateEvent(body, headers, secret)] of [@polar-sh/sdk/webhooks]:
    the parsed event, or what it throws.  The clock it reads to judge the
    timestamp is part of the function. *)
Variable validateEvent : string -> WebhookHeaders -> string -> Completion Event.t.

(** [polar.checkouts.create(args)]: the session, or the rejection, given
    the sessions asked for so far. *)
Variable polar_checkouts_create :
  list CheckoutCreate -> CheckoutCreate -> Completion Session.

(** The awaited provider call; it is noted in the world before its
    completion is known. *)
Definition polar_checkouts (args : CheckoutCreate) : M Session := fun w =>
  (polar_checkouts_create (polarCheckouts w) args,
   with_polarCheckouts (fun calls => calls ++ [args]) w).

(** *** billing.webhooks.ts *)

(** The [switch] with the handlers the module imports: those of the service. *)
Definition dispatch (event : Event.t) (now : Z) : M unit :=
  dispatch_with onSubscriptionActive onSubscriptionCanceled event now.

(** The endpoint of the backend: the module linked with the SDK's
    [validateEvent] and the service's handlers. *)
Definition billingWebhooks (c : Request) (now : Z) : M Response.t :=
  billingWebhooks_with validateEvent onSubscriptionActive onSubscriptionCanceled c now.

(** *** billing.rpc.ts *)

(** [getProductId(planId)] *)
Definition getProductId (planId : PlanId) : M string :=
  productId ← match planId with
              | pro => process_env "POLAR_PRO_PRODUCT_ID"
              | master => process_env "POLAR_MASTER_PRODUCT_ID"
              end;
  match truthy productId with
  | None => throw (Error ("Missing product ID for plan: " +:+ PlanId_to_string planId))
  | Some productId => mret productId
  end.

(** [billingRpc.createCheckout(c)] *)
Definition createCheckout (c : Request) : M Response.t :=
  body ← settle (req_json c);
  let planId := get_planId body in
  match isValidPlan planId with
  | None => mret invalid_plan
  | Some planId =>
      let customerId := "poc_user_001" in
      purchased ← hasPurchasedPlan customerId planId;
      if purchased : bool
      then mret already_purchased
      else
        productId ← getProductId planId;
        frontendUrl ← process_env "FRONTEND_URL";
        let baseUrl := default "http://localhost:5173" (truthy frontendUrl) in
        session ← polar_checkouts
          (mkCheckoutCreate [productId] customerId
             (baseUrl +:+ "/payment?status=success&plan=" +:+ PlanId_to_string planId)
             (baseUrl +:+ "/payment?status=cancelled&plan=" +:+ PlanId_to_string planId));
        mret (c_json (JObj [("url", JStr (url session))]) 200)
  end.

(** *** index.ts *)

(** [app.get("/purchases/:customerId", ...)]; [c.req.param] of a
    parameter of the matched route is defined. *)
Definition purchasesRoute (c : Request) : M Response.t :=
  let customerId := default "" (req_param c !! "customerId") in
  purchasedPlans ← getPurchasedPlanIds customerId;
  mret (c_json (JObj [("customerId", JStr customerId);
                      ("purchasedPlans",
                       JArr ((fun p => JStr (PlanId_to_string p)) <$> purchasedPlans))]) 200).

End Endpoints.

(** Start-up of [index.ts]: the mapping is initialised once, on a fresh
    process, before any route is served. *)
Definition startup (e : gmap string string) : World :=
  exec initProductPlanMapping (fresh e).

(** ** Seeing which handler the endpoint dispatches *)

(** Handlers that do nothing but show that they were called: each throws
    its own name. *)
Definition probe_onSubscriptionActive
    : string -> option string -> option string -> Z -> M unit :=
  fun _ _ _ _ => throw (Error "onSubscriptionActive").

Definition probe_onSubscriptionCanceled : string -> M unit :=
  fun _ => throw (Error "onSubscriptionCanceled").

(** The handler the endpoint dispatches first for a request, if it
    dispatches any: the endpoint catches what [validateEvent] throws, so
    linked with the probes it throws only when it calls one of them. *)
Definition first_dispatched
    (validateEvent : string -> WebhookHeaders -> string -> Completion Event.t)
    (c : Request) (now : Z) (w : World) : option string :=
  match (billingWebhooks_with validateEvent
           probe_onSubscriptionActive probe_onSubscriptionCanceled c now w).1 with
  | Throw (Error name) => Some name
  | _ => None
  end.

(** ** Calls into the service, and the worlds they lead to *)

(** A call of one of the functions [billing.service.ts] exports.  The two
    maps are private to that module, so these calls are the only way the
    ledger changes. *)
Inductive ServiceCall : Type :=
| InitProductPlanMapping
| RecordPurchase (customerId productId orderId : string) (now : Z)
| GetCustomerPurchases (customerId : string)
| GetPurchasedPlanIds (customerId : string)
| HasPurchasedPlan (customerId : string) (planId : PlanId)
| RevokePurchase (customerId : string) (planId : PlanId)
| OnSubscriptionActive (customerId : string) (productId subscriptionId : option string) (now : Z)
| OnSubscriptionCanceled (customerId : string)
| OnSubscriptionRevoked (customerId : string).

Definition call (op : ServiceCall) : M unit :=
  match op with
  | InitProductPlanMapping => initProductPlanMapping
  | RecordPurchase c p o now => recordPurchase c p o now
  | GetCustomerPurchases c => getCustomerPurchases c;; mret tt
  | GetPurchasedPlanIds c => getPurchasedPlanIds c;; mret tt
  | HasPurchasedPlan c plan => hasPurchasedPlan c plan;; mret tt
  | RevokePurchase c plan => revokePurchase c plan
  | OnSubscriptionActive c p s now => onSubscriptionActive c p s now
  | OnSubscriptionCanceled c => onSubscriptionCanceled c
  | OnSubscriptionRevoked c => onSubscriptionRevoked c
  end.

(** The worlds of a running process: a fresh one, and from there any call
    into the service and any checkout session asked of the provider. *)
Inductive reachable : World -> Prop :=
| reachable_fresh e :
    reachable (fresh e)
| reachable_call op w :
    reachable w -> reachable (exec (call op) w)
| reachable_checkout args w :
    reachable w -> reachable (with_polarCheckouts (fun calls => calls ++ [args]) w).

(** The purchases stored for a customer, none for an unknown one. *)
Definition purchases_of (customerId : string) (w : World) : list Purchase.t :=
  default [] (purchaseStore w !! customerId).

(** The active records of a (customer, plan) pair. *)
Definition active_records (customerId : string) (planId : PlanId) (w : World)
    : list Purchase.t :=
  filter (active_for planId) (purchases_of customerId w).

(** The invariant of the data model: no pair has two active records. *)
Definition at_most_one_active (w : World) : Prop :=
  forall customerId planId, length (active_records customerId planId w) <= 1.

(** Every record is filed under the customer it names. *)
Definition filed_by_customer (w : World) : Prop :=
  forall customerId p,
    p ∈ purchases_of customerId w -> Purchase.customerId p = customerId.

(** The customer holds the plan: some record of theirs is active for it. *)
Definition holds_active (customerId : string) (planId : PlanId) (w : World) : Prop :=
  Exists (active_for planId) (purchases_of customerId w).

(** The records of a customer that are in a given status. *)
Definition records_in_status (s : Status) (customerId : string) (w : World)
    : list Purchase.t :=
  filter (fun p => Purchase.status p = s) (purchases_of customerId w).

(** A property that every stored record has, under its customer. *)
Definition all_records (Q : string -> Purchase.t -> Prop) (w : World) : Prop :=
  forall customerId p, p ∈ purchases_of customerId w -> Q customerId p.

(** ** A concrete deployment, for the scenarios *)

Module Scenario.

(** Both products configured, the webhook secret set. *)
Definition deployment : gmap string string :=
  <["POLAR_WEBHOOK_SECRET" := "whsec_poc"]>
    (<["POLAR_PRO_PRODUCT_ID" := "prod_pro"]>
       (<["POLAR_MASTER_PRODUCT_ID" := "prod_master"]> ∅)).

(** The activation of the scenario: customer [c1], the product of plan
    [pro], subscription [o1]. *)
Definition activation : Event.t :=
  Event.mk "subscription.active" (Event.mkData "o1" "c1" "prod_pro").

(** An event of a type the endpoint has no [case] for. *)
Definition refund : Event.t :=
  Event.mk "refund.created" (Event.mkData "r1" "c1" "prod_pro").

(** A stand-in for the SDK's verification: a body passes under the
    deployment's secret when its signature header is the one below. *)
Definition sdk (body : string) (headers : WebhookHeaders)
    (secret : string) : Completion Event.t :=
  if decide (secret = "whsec_poc" ∧ webhook_signature headers = "v1,sig-of-" +:+ body)
  then if decide (body = "activation") then Normal activation
       else if decide (body = "refund") then Normal refund
       else Throw (OtherException "SDKValidationError")
  else Throw (WebhookVerificationError "No matching signature found").

(** A stand-in for the provider: every session gets the same address. *)
Definition provider (before : list CheckoutCreate)
    (args : CheckoutCreate) : Completion Session :=
  Normal (mkSession "https://polar.example/checkout").

Definition delivery_of (body signature : string) : Request :=
  mkRequest body
    (<["webhook-id" := "msg_1"]>
       (<["webhook-timestamp" := "1700000000"]>
          (<["webhook-signature" := signature]> ∅)))
    (Throw (OtherException "SyntaxError")) ∅.

(** The activation as the provider sends it, and the same delivery with
    its body altered on the way. *)
Definition delivery : Request := delivery_of "activation" "v1,sig-of-activation".
Definition tampered : Request := delivery_of "activation!" "v1,sig-of-activation".
Definition unknown_delivery : Request := delivery_of "refund" "v1,sig-of-refund".

(** A checkout request for a plan. *)
Definition checkout_of (plan : string) : Request :=
  mkRequest "" ∅ (Normal (JObj [("planId", JStr plan)])) ∅.

(** The process right after start-up, and after [c1]'s purchase of the
    [pro] product has been recorded. *)
Definition started : World := startup deployment.
Definition c1_holds_pro : World :=
  exec (recordPurchase "c1" "prod_pro" "o1" 1000) started.

(** The checkout customer of the POC holding [pro]. *)
Definition poc_user_holds_pro : World :=
  exec (recordPurchase "poc_user_001" "prod_pro" "o7" 1000) started.

End Scenario.

(** ** index.ts: the health check, and runs of calls *)

(** [!!v] on a [string | undefined]. *)
Definition to_boolean (v : option string) : bool :=
  match truthy v with
  | Some _ => true
  | None => false
  end.

(** [app.get("/", ...)]: the health check with its [env_check] flags. *)
Definition healthRoute : M Response.t :=
  accessToken ← process_env "POLAR_ACCESS_TOKEN";
  webhookSecret ← process_env "POLAR_WEBHOOK_SECRET";
  proProductId ← process_env "POLAR_PRO_PRODUCT_ID";
  masterProductId ← process_env "POLAR_MASTER_PRODUCT_ID";
  mret (c_json
          (JObj [("status", JStr "ok");
                 ("message", JStr "Polar Payments POC Backend");
                 ("env_check",
                  JObj [("has_polar_token", JBool (to_boolean accessToken));
                        ("has_webhook_secret", JBool (to_boolean webhookSecret));
                        ("has_pro_product", JBool (to_boolean proProductId));
                        ("has_master_product", JBool (to_boolean masterProductId))])])
          200).

(** The other two answers of the webhook endpoint. *)
Definition invalid_webhook : Response.t := c_text "Invalid webhook" 400.
Definition server_misconfigured : Response.t := c_text "Server misconfigured" 500.

(** The environment variable [getProductId] and [initProductPlanMapping]
    read for a plan. *)
Definition product_variable (planId : PlanId) : string :=
  match planId with
  | pro => "POLAR_PRO_PRODUCT_ID"
  | master => "POLAR_MASTER_PRODUCT_ID"
  end.

(** The argument [createCheckout] hands to the provider for a plan and its
    product, in a world. *)
Definition checkout_request (planId : PlanId) (productId : string) (w : World)
    : CheckoutCreate :=
  let baseUrl := default "http://localhost:5173" (truthy (env w !! "FRONTEND_URL")) in
  mkCheckoutCreate [productId] "poc_user_001"
    (baseUrl +:+ "/payment?status=success&plan=" +:+ PlanId_to_string planId)
    (baseUrl +:+ "/payment?status=cancelled&plan=" +:+ PlanId_to_string planId).

(** The world after a run of calls into the service, oldest first. *)
Definition run (ops : list ServiceCall) (w : World) : World :=
  foldl (fun w op => exec (call op) w) w ops.

(** [q] is [p] but for its status. *)
Definition same_but_status (p q : Purchase.t) : Prop :=
  q = Purchase.set_status (Purchase.status q) p.

(** The moves of a status that the service makes: none, or active to revoked. *)
Definition status_step (s s' : Status) : Prop :=
  s' = s \/ (s = active /\ s' = revoked).

(** ** Lists of purchases *)

Section Filtering.
Context {A : Type} (P : A -> Prop) `{!forall x, Decision (P x)}.

Lemma Exists_filter_length (l : list A) :
  Exists P l <-> 0 < length (filter P l).
Proof.
  induction l as [|x l IH]; simpl.
  - rewrite Exists_nil. lia.
  - rewrite Exists_cons, filter_cons. destruct (decide (P x)); simpl.
    + split; [lia | auto].
    + rewrite IH. tauto.
Qed.

Lemma not_Exists_filter_nil (l : list A) :
  ~ Exists P l <-> filter P l = [].
Proof.
  rewrite Exists_filter_length. destruct (filter P l); simpl; split;
    intros; try done; lia.
Qed.

(** Overwriting one position moves the number of matches by what the old
    and the new element contribute. *)
Lemma filter_insert_length (l : list A) (i : nat) (x y : A) :
  l !! i = Some x ->
  length (filter P (<[i := y]> l)) + (if decide (P x) then 1 else 0)
  = length (filter P l) + (if decide (P y) then 1 else 0).
Proof.
  revert i. induction l as [|z l IH]; intros [|i] Hi; simpl in *; try done.
  - injection Hi as ->. rewrite !filter_cons.
    destruct (decide (P x)), (decide (P y)); simpl; lia.
  - rewrite !filter_cons. specialize (IH i Hi).
    destruct (decide (P z)); simpl; lia.
Qed.
End Filtering.

(** ** The service, call by call *)

Lemma get_purchases_run c w : get_purchases c w = (Normal (purchases_of c w), w).
Proof. reflexivity. Qed.

Lemma recordPurchase_unknown c prod o now w :
  productToPlanMap w !! prod = None ->
  recordPurchase c prod o now w = (Normal tt, w).
Proof.
  intros H. unfold recordPurchase, mbind, M_bind, gets. simpl. by rewrite H.
Qed.

Lemma recordPurchase_owned c prod o now plan w :
  productToPlanMap w !! prod = Some plan ->
  Exists (active_for plan) (purchases_of c w) ->
  recordPurchase c prod o now w = (Normal tt, w).
Proof.
  intros H Hex. unfold recordPurchase, mbind, M_bind, gets. simpl. rewrite H.
  unfold get_purchases, gets. fold (purchases_of c w).
  by rewrite bool_decide_eq_true_2.
Qed.

Lemma recordPurchase_new c prod o now plan w :
  productToPlanMap w !! prod = Some plan ->
  ~ Exists (active_for plan) (purchases_of c w) ->
  recordPurchase c prod o now w
  = (Normal tt,
     with_purchaseStore
       (<[c := purchases_of c w ++ [Purchase.mk o c prod plan now active]]>) w).
Proof.
  intros H Hex. unfold recordPurchase, mbind, M_bind, gets. simpl. rewrite H.
  unfold get_purchases, gets. fold (purchases_of c w).
  by rewrite bool_decide_eq_false_2.
Qed.

Lemma revokePurchase_none c plan w :
  ~ Exists (active_for plan) (purchases_of c w) ->
  revokePurchase c plan w = (Normal tt, w).
Proof.
  intros Hex. unfold revokePurchase, mbind, M_bind, get_purchases, gets.
  fold (purchases_of c w).
  destruct (list_find (active_for plan) (purchases_of c w)) as [[i p]|] eqn:Hf;
    [|done].
  apply list_find_Some in Hf as (Hi & Hp & _). exfalso. apply Hex.
  apply Exists_exists. exists p. split; [|done]. by eapply list_elem_of_lookup_2.
Qed.

Lemma revokePurchase_found c plan w i p :
  list_find (active_for plan) (purchases_of c w) = Some (i, p) ->
  revokePurchase c plan w
  = (Normal tt,
     with_purchaseStore
       (<[c := <[i := Purchase.set_status revoked p]> (purchases_of c w)]>) w).
Proof.
  intros Hf. unfold revokePurchase, mbind, M_bind, get_purchases, gets.
  fold (purchases_of c w). by rewrite Hf.
Qed.

Lemma hasPurchasedPlan_run c plan w :
  hasPurchasedPlan c plan w
  = (Normal (bool_decide (Exists (active_for plan) (purchases_of c w))), w).
Proof. reflexivity. Qed.

Lemma getPurchasedPlanIds_run c w :
  getPurchasedPlanIds c w
  = (Normal (Purchase.planId <$>
             filter (fun p => Purchase.status p = active) (purchases_of c w)), w).
Proof. reflexivity. Qed.

(** ** Reading the store after a write *)

Lemma purchases_of_set c l c' w :
  purchases_of c' (with_purchaseStore (<[c := l]>) w)
  = if decide (c = c') then l else purchases_of c' w.
Proof.
  unfold purchases_of, with_purchaseStore. simpl. rewrite lookup_insert.
  by case_decide.
Qed.

Lemma purchases_of_fresh c e : purchases_of c (fresh e) = [].
Proof. unfold purchases_of, fresh. simpl. by rewrite lookup_empty. Qed.

(** ** What each call does to the active records *)

Lemma initProductPlanMapping_purchases c w :
  purchases_of c (exec initProductPlanMapping w) = purchases_of c w.
Proof.
  unfold exec, initProductPlanMapping, mbind, M_bind, process_env, gets, modify,
    mret, M_ret. simpl.
  destruct (truthy (env w !! "POLAR_PRO_PRODUCT_ID")),
    (truthy (env w !! "POLAR_MASTER_PRODUCT_ID")); reflexivity.
Qed.

Lemma recordPurchase_cases c prod o now w :
  exec (recordPurchase c prod o now) w = w
  \/ exists plan,
       productToPlanMap w !! prod = Some plan
       /\ ~ Exists (active_for plan) (purchases_of c w)
       /\ exec (recordPurchase c prod o now) w
          = with_purchaseStore
              (<[c := purchases_of c w ++ [Purchase.mk o c prod plan now active]]>) w.
Proof.
  unfold exec. destruct (productToPlanMap w !! prod) as [plan|] eqn:Hplan.
  - destruct (decide (Exists (active_for plan) (purchases_of c w))) as [Hex|Hex].
    + left. by rewrite (recordPurchase_owned _ _ _ _ plan).
    + right. exists plan. by rewrite (recordPurchase_new _ _ _ _ plan).
  - left. by rewrite recordPurchase_unknown.
Qed.

Lemma revokePurchase_cases c plan w :
  exec (revokePurchase c plan) w = w
  \/ exists i p,
       list_find (active_for plan) (purchases_of c w) = Some (i, p)
       /\ exec (revokePurchase c plan) w
          = with_purchaseStore
              (<[c := <[i := Purchase.set_status revoked p]> (purchases_of c w)]>) w.
Proof.
  unfold exec.
  destruct (list_find (active_for plan) (purchases_of c w)) as [[i p]|] eqn:Hf.
  - right. exists i, p. by rewrite (revokePurchase_found _ _ _ i p).
  - left. rewrite revokePurchase_none; [done|].
    intros Hex. apply list_find_None in Hf.
    apply Exists_exists in Hex as (x & Hx & HP).
    by eapply Forall_forall in Hf.
Qed.

Lemma onSubscriptionActive_cases c p s now w :
  exec (onSubscriptionActive c p s now) w = w
  \/ exists prod sid,
       truthy p = Some prod /\ truthy s = Some sid
       /\ onSubscriptionActive c p s now = recordPurchase c prod sid now.
Proof.
  unfold onSubscriptionActive.
  destruct (truthy p) as [prod|]; [destruct (truthy s) as [sid|]|].
  - right. by exists prod, sid.
  - by left.
  - by left.
Qed.

Lemma not_active_revoked plan p :
  ~ active_for plan (Purchase.set_status revoked p).
Proof. by intros [_ ?]. Qed.

Lemma active_for_new o c prod plan now q :
  active_for q (Purchase.mk o c prod plan now active) <-> plan = q.
Proof. unfold active_for. simpl. tauto. Qed.

(** ** The invariant *)

Lemma at_most_one_active_fresh e : at_most_one_active (fresh e).
Proof.
  intros c plan. unfold active_records. rewrite purchases_of_fresh. simpl. lia.
Qed.

Lemma recordPurchase_at_most_one_active c prod o now w :
  at_most_one_active w -> at_most_one_active (exec (recordPurchase c prod o now) w).
Proof.
  intros Hinv. destruct (recordPurchase_cases c prod o now w)
    as [-> | (plan & _ & Hnone & ->)]; [done|].
  intros c' q. unfold active_records. rewrite purchases_of_set.
  case_decide as Hc; [subst c'|apply Hinv].
  rewrite filter_app, length_app, filter_cons, filter_nil.
  destruct (decide (active_for q _)) as [Hq|Hq]; simpl.
  - apply active_for_new in Hq as ->.
    apply (proj1 (not_Exists_filter_nil _ _)) in Hnone. rewrite Hnone. simpl. lia.
  - specialize (Hinv c q). unfold active_records in Hinv. lia.
Qed.

Lemma revokePurchase_at_most_one_active c plan w :
  at_most_one_active w -> at_most_one_active (exec (revokePurchase c plan) w).
Proof.
  intros Hinv. destruct (revokePurchase_cases c plan w)
    as [-> | (i & p & Hf & ->)]; [done|].
  apply list_find_Some in Hf as (Hi & _ & _).
  intros c' q. unfold active_records. rewrite purchases_of_set.
  case_decide as Hc; [subst c'|apply Hinv].
  pose proof (filter_insert_length (active_for q) _ i p
                (Purchase.set_status revoked p) Hi) as Hlen.
  rewrite (decide_False (P := active_for q (Purchase.set_status revoked p)))
    in Hlen by apply not_active_revoked.
  specialize (Hinv c q). unfold active_records in Hinv.
  destruct (decide (active_for q p)); lia.
Qed.

Lemma call_at_most_one_active op w :
  at_most_one_active w -> at_most_one_active (exec (call op) w).
Proof.
  intros Hinv. destruct op; simpl; try done.
  - intros c plan. unfold active_records.
    rewrite initProductPlanMapping_purchases. apply Hinv.
  - by apply recordPurchase_at_most_one_active.
  - by apply revokePurchase_at_most_one_active.
  - destruct (onSubscriptionActive_cases customerId productId subscriptionId now w)
      as [-> | (prod & sid & _ & _ & ->)]; [done|].
    by apply recordPurchase_at_most_one_active.
Qed.

Lemma reachable_at_most_one_active w : reachable w -> at_most_one_active w.
Proof.
  induction 1 as [e | op w _ IH | args w _ IH].
  - apply at_most_one_active_fresh.
  - by apply call_at_most_one_active.
  - exact IH.
Qed.

(** ** One active record: the one [find] meets *)

Section Uniqueness.
Context {A : Type} (P : A -> Prop) `{!forall x, Decision (P x)}.

Lemma filter_two_matches (l : list A) (i j : nat) (x y : A) :
  i < j -> l !! i = Some x -> l !! j = Some y -> P x -> P y ->
  2 <= length (filter P l).
Proof.
  revert i j. induction l as [|z l IH]; intros i j Hij Hi Hj Hx Hy.
  - by rewrite lookup_nil in Hi.
  - rewrite filter_cons. destruct i as [|i], j as [|j]; try lia; simpl in *.
    + injection Hi as ->. rewrite decide_True by done. simpl.
      assert (0 < length (filter P l)); [|lia].
      apply Exists_filter_length, Exists_exists. exists y.
      split; [by eapply list_elem_of_lookup_2 | done].
    + assert (2 <= length (filter P l)) by (apply (IH i j); [lia|done..]).
      destruct (decide (P z)); simpl; lia.
Qed.

Lemma list_find_only (l : list A) (i : nat) (x : A) :
  length (filter P l) <= 1 -> l !! i = Some x -> P x ->
  list_find P l = Some (i, x).
Proof.
  intros Hone Hi Hx. apply list_find_Some. split_and!; [done..|].
  intros j y Hj Hji Hy.
  pose proof (filter_two_matches l j i y x Hji Hj Hi Hy Hx). lia.
Qed.

Lemma elem_of_list_insert_inv (l : list A) (i : nat) (x y : A) :
  x ∈ <[i := y]> l -> x = y \/ x ∈ l.
Proof.
  intros (j & Hj)%list_elem_of_lookup_1.
  apply list_lookup_insert_Some in Hj as [(_ & -> & _) | (_ & Hj)].
  - by left.
  - right. by eapply list_elem_of_lookup_2.
Qed.
End Uniqueness.

(** ** Properties held record by record *)

Section RecordWise.
Variable Q : string -> Purchase.t -> Prop.
Hypothesis Q_new :
  forall c o prod plan now, Q c (Purchase.mk o c prod plan now active).
Hypothesis Q_revoked :
  forall c p, Q c p -> Q c (Purchase.set_status revoked p).

Lemma all_records_recordPurchase c prod o now w :
  all_records Q w -> all_records Q (exec (recordPurchase c prod o now) w).
Proof.
  intros Hall. destruct (recordPurchase_cases c prod o now w)
    as [-> | (plan & _ & _ & ->)]; [done|].
  intros c' p. rewrite purchases_of_set. case_decide as Hc; [subst c'|apply Hall].
  intros [Hp | ->%list_elem_of_singleton]%elem_of_app; [by apply Hall | apply Q_new].
Qed.

Lemma all_records_revokePurchase c plan w :
  all_records Q w -> all_records Q (exec (revokePurchase c plan) w).
Proof.
  intros Hall. destruct (revokePurchase_cases c plan w)
    as [-> | (i & q & Hf & ->)]; [done|].
  apply list_find_Some in Hf as (Hi & _ & _).
  intros c' p. rewrite purchases_of_set. case_decide as Hc; [subst c'|apply Hall].
  intros [-> | Hp]%elem_of_list_insert_inv; [|by apply Hall].
  apply Q_revoked, Hall. by eapply list_elem_of_lookup_2.
Qed.

Lemma all_records_call op w :
  all_records Q w -> all_records Q (exec (call op) w).
Proof.
  intros Hall. destruct op; simpl; try done.
  - intros c p. rewrite initProductPlanMapping_purchases. apply Hall.
  - by apply all_records_recordPurchase.
  - by apply all_records_revokePurchase.
  - destruct (onSubscriptionActive_cases customerId productId subscriptionId now w)
      as [-> | (prod & sid & _ & _ & ->)]; [done|].
    by apply all_records_recordPurchase.
Qed.

Lemma all_records_reachable w : reachable w -> all_records Q w.
Proof.
  induction 1 as [e | op w _ IH | args w _ IH].
  - intros c p. rewrite purchases_of_fresh. by intros ?%elem_of_nil.
  - by apply all_records_call.
  - exact IH.
Qed.
End RecordWise.

(** Records sit under the customer they name. *)
Lemma reachable_filed_by_customer w : reachable w -> filed_by_customer w.
Proof.
  apply (all_records_reachable (fun c p => Purchase.customerId p = c)); done.
Qed.

(** No call of the service leaves a record in status [canceled]. *)
Lemma reachable_never_canceled w c :
  reachable w -> records_in_status canceled c w = [].
Proof.
  intros Hw. apply not_Exists_filter_nil. intros (p & Hp & Hs)%Exists_exists.
  assert (Hall : all_records (fun _ p => Purchase.status p <> canceled) w)
    by (by apply all_records_reachable).
  by apply (Hall c p Hp).
Qed.

(** ** The endpoints *)

Section EndpointFacts.
Variable validateEvent : string -> WebhookHeaders -> string -> Completion Event.t.
Variable polar_checkouts_create :
  list CheckoutCreate -> CheckoutCreate -> Completion Session.

(** Whatever the type, the [switch] returns and leaves the world as it
    found it: the activation case hands on the customer alone. *)
Lemma dispatch_run event now w : dispatch event now w = (Normal tt, w).
Proof. unfold dispatch, dispatch_with. repeat case_decide; reflexivity. Qed.

(** The webhook endpoint always answers, and never writes. *)
Lemma billingWebhooks_answers c now w :
  exists r, billingWebhooks validateEvent c now w = (Normal r, w).
Proof.
  unfold billingWebhooks, billingWebhooks_with, mbind, M_bind, process_env, gets.
  destruct (truthy (env w !! "POLAR_WEBHOOK_SECRET")) as [secret|];
    [|by eexists].
  destruct (validateEvent _ _ secret) as [event|[]]; try by eexists.
  rewrite dispatch_run. by eexists.
Qed.

Lemma billingWebhooks_rejects_throw c now w secret e :
  truthy (env w !! "POLAR_WEBHOOK_SECRET") = Some secret ->
  validateEvent (req_text c) (webhookHeaders c) secret = Throw e ->
  exists r, billingWebhooks validateEvent c now w = (Normal r, w)
            /\ (Response.status r = 401 \/ Response.status r = 400).
Proof.
  intros Hsecret Hthrow.
  unfold billingWebhooks, billingWebhooks_with, mbind, M_bind, process_env, gets.
  rewrite Hsecret, Hthrow. destruct e; eexists; split; try done; auto.
Qed.

Lemma billingWebhooks_no_secret c now w :
  truthy (env w !! "POLAR_WEBHOOK_SECRET") = None ->
  billingWebhooks validateEvent c now w
  = (Normal (c_text "Server misconfigured" 500), w).
Proof.
  intros Hsecret. unfold billingWebhooks, billingWebhooks_with, mbind, M_bind, process_env, gets.
  by rewrite Hsecret.
Qed.

(** The checkout endpoint writes nothing but the provider call. *)
Lemma createCheckout_world c w :
  exec (createCheckout polar_checkouts_create c) w = w
  \/ exists args,
       exec (createCheckout polar_checkouts_create c) w
       = with_polarCheckouts (fun calls => calls ++ [args]) w.
Proof.
  unfold exec, createCheckout, mbind, M_bind, settle.
  destruct (req_json c) as [body|]; [|by left].
  destruct (isValidPlan (get_planId body)) as [plan|]; [|by left].
  rewrite hasPurchasedPlan_run. case_bool_decide; [by left|].
  unfold getProductId, mbind, M_bind, process_env, gets.
  destruct plan.
  all: destruct (truthy (env w !! _)); [|by left].
  all: unfold polar_checkouts; simpl.
  all: destruct (polar_checkouts_create _ _); right; by eexists.
Qed.

Lemma createCheckout_reachable c w :
  reachable w -> reachable (exec (createCheckout polar_checkouts_create c) w).
Proof.
  intros Hw. destruct (createCheckout_world c w) as [-> | [args ->]]; [done|].
  by apply reachable_checkout.
Qed.

Lemma billingWebhooks_reachable c now w :
  reachable w -> reachable (exec (billingWebhooks validateEvent c now) w).
Proof.
  intros Hw. unfold exec.
  by destruct (billingWebhooks_answers c now w) as [r ->].
Qed.
End EndpointFacts.

(** ** Recording and revoking, seen from the queries *)

Lemma recordPurchase_productToPlanMap c prod o now w :
  productToPlanMap (exec (recordPurchase c prod o now) w) = productToPlanMap w.
Proof.
  by destruct (recordPurchase_cases c prod o now w) as [-> | (? & _ & _ & ->)].
Qed.

Lemma revokePurchase_productToPlanMap c plan w :
  productToPlanMap (exec (revokePurchase c plan) w) = productToPlanMap w.
Proof.
  by destruct (revokePurchase_cases c plan w) as [-> | (? & ? & _ & ->)].
Qed.

Lemma recordPurchase_returns c prod o now w :
  recordPurchase c prod o now w = (Normal tt, exec (recordPurchase c prod o now) w).
Proof.
  unfold exec. destruct (productToPlanMap w !! prod) as [plan|] eqn:Hplan.
  - destruct (decide (Exists (active_for plan) (purchases_of c w))).
    + by rewrite (recordPurchase_owned _ _ _ _ plan).
    + by rewrite (recordPurchase_new _ _ _ _ plan).
  - by rewrite recordPurchase_unknown.
Qed.

Lemma revokePurchase_returns c plan w :
  revokePurchase c plan w = (Normal tt, exec (revokePurchase c plan) w).
Proof.
  unfold exec.
  destruct (list_find (active_for plan) (purchases_of c w)) as [[i p]|] eqn:Hf.
  - by rewrite (revokePurchase_found _ _ _ i p).
  - unfold revokePurchase, mbind, M_bind, get_purchases, gets.
    fold (purchases_of c w). by rewrite Hf.
Qed.

(** Once a resolvable product has been recorded, the customer holds its plan. *)
Lemma recordPurchase_holds c prod o now plan w :
  productToPlanMap w !! prod = Some plan ->
  holds_active c plan (exec (recordPurchase c prod o now) w).
Proof.
  intros Hplan. unfold holds_active, exec.
  destruct (decide (Exists (active_for plan) (purchases_of c w))) as [Hex|Hex].
  - by rewrite (recordPurchase_owned _ _ _ _ plan).
  - rewrite (recordPurchase_new _ _ _ _ plan) by done. simpl.
    rewrite purchases_of_set, decide_True by done.
    apply Exists_app. right. by apply Exists_cons_hd.
Qed.

(** In a world that keeps the invariant, revoking leaves the pair without
    an active record. *)
Lemma revokePurchase_clears c plan w :
  at_most_one_active w ->
  active_records c plan (exec (revokePurchase c plan) w) = [].
Proof.
  intros Hinv. unfold exec.
  destruct (list_find (active_for plan) (purchases_of c w)) as [[i p]|] eqn:Hf.
  - rewrite (revokePurchase_found _ _ _ i p) by done. simpl.
    apply list_find_Some in Hf as (Hi & Hp & _).
    unfold active_records. rewrite purchases_of_set, decide_True by done.
    pose proof (filter_insert_length (active_for plan) _ i p
                  (Purchase.set_status revoked p) Hi) as Hlen.
    rewrite decide_True in Hlen by done.
    rewrite (decide_False (P := active_for plan (Purchase.set_status revoked p)))
      in Hlen by apply not_active_revoked.
    specialize (Hinv c plan). unfold active_records in Hinv.
    apply length_zero_iff_nil. lia.
  - assert (Hnone : ~ Exists (active_for plan) (purchases_of c w)).
    { intros (x & Hx & HP)%Exists_exists. apply list_find_None in Hf.
      by eapply Forall_forall in Hf. }
    rewrite revokePurchase_none by done. by apply not_Exists_filter_nil.
Qed.

(** Handed the product and the subscription, the activation handler of the
    service does record the purchase. *)
Lemma onSubscriptionActive_records c prod sid now plan w :
  prod <> "" -> sid <> "" ->
  productToPlanMap w !! prod = Some plan ->
  holds_active c plan (exec (onSubscriptionActive c (Some prod) (Some sid) now) w).
Proof.
  intros Hprod Hsid Hplan. unfold onSubscriptionActive. simpl.
  rewrite !decide_False by done. by apply recordPurchase_holds.
Qed.

(** No call of the service throws. *)
Lemma call_returns op w : call op w = (Normal tt, exec (call op) w).
Proof.
  destruct op; simpl; try reflexivity.
  - unfold exec, initProductPlanMapping, mbind, M_bind, process_env, gets. simpl.
    destruct (truthy (env w !! "POLAR_PRO_PRODUCT_ID")),
      (truthy (env w !! "POLAR_MASTER_PRODUCT_ID")); reflexivity.
  - apply recordPurchase_returns.
  - apply revokePurchase_returns.
  - unfold onSubscriptionActive.
    destruct (truthy productId), (truthy subscriptionId);
      try reflexivity; apply recordPurchase_returns.
Qed.

(** The purchases route answers with what [getPurchasedPlanIds] returns for
    the customer of the path, and writes nothing. *)
Lemma purchasesRoute_run c w customerId :
  req_param c !! "customerId" = Some customerId ->
  purchasesRoute c w
  = (Normal (c_json (JObj [("customerId", JStr customerId);
                           ("purchasedPlans",
                            JArr ((fun p => JStr (PlanId_to_string p))
                                    <$> (Purchase.planId
                                           <$> records_in_status active customerId w)))])
               200), w).
Proof. intros Hparam. unfold purchasesRoute. by rewrite Hparam. Qed.

(** ** The scenarios' worlds are worlds of a running process *)

Lemma started_reachable : reachable Scenario.started.
Proof. apply (reachable_call InitProductPlanMapping), reachable_fresh. Qed.

Lemma c1_holds_pro_reachable : reachable Scenario.c1_holds_pro.
Proof.
  apply (reachable_call (RecordPurchase "c1" "prod_pro" "o1" 1000)),
    started_reachable.
Qed.

Lemma poc_user_holds_pro_reachable : reachable Scenario.poc_user_holds_pro.
Proof.
  apply (reachable_call (RecordPurchase "poc_user_001" "prod_pro" "o7" 1000)),
    started_reachable.
Qed.

(** * The properties *)

(** C1, as the code runs it.  The claim: after an authenticated
    [subscription.active] event for customer [c1], product mapped to plan
    [pro], order [o1], [hasPurchasedPlan(c1, "pro")] is true, and a second
    identical delivery leaves exactly one active record.  The endpoint calls
    [onSubscriptionActive] with the customer alone, so nothing is recorded:
    on the deployment of the scenario the delivery is acknowledged, the
    query answers [false], and after the second delivery the pair still has
    no active record. *)
Theorem activation_delivery_records_nothing :
  let deliver := billingWebhooks Scenario.sdk Scenario.delivery in
  let once := exec (deliver 1000%Z) Scenario.started in
  let twice := exec (deliver 2000%Z) once in
  productToPlanMap Scenario.started !! "prod_pro" = Some pro
  /\ Scenario.sdk (req_text Scenario.delivery)
       (webhookHeaders Scenario.delivery) "whsec_poc"
     = Normal Scenario.activation
  /\ deliver 1000%Z Scenario.started = (Normal received, Scenario.started)
  /\ hasPurchasedPlan "c1" pro once = (Normal false, once)
  /\ length (active_records "c1" pro twice) = 0.
Proof. vm_compute. repeat split. Qed.

(** C2.  For every (customer, plan) pair at most one purchase record is
    active at any time: this holds of the empty initial ledger, every call
    of the service (recording, revoking, the read-only queries, the
    subscription handlers, the initialisation of the mapping) preserves it,
    so it holds in every world the process reaches; and recording a product
    whose plan the customer already holds changes nothing. *)
Theorem at_most_one_active_invariant :
  (forall e, at_most_one_active (fresh e))
  /\ (forall op w, at_most_one_active w -> at_most_one_active (exec (call op) w))
  /\ (forall w, reachable w -> at_most_one_active w)
  /\ (forall c prod o now plan w,
        productToPlanMap w !! prod = Some plan ->
        holds_active c plan w ->
        recordPurchase c prod o now w = (Normal tt, w)).
Proof.
  split_and!.
  - apply at_most_one_active_fresh.
  - apply call_at_most_one_active.
  - apply reachable_at_most_one_active.
  - intros c prod o now plan w Hplan Hholds.
    by apply (recordPurchase_owned _ _ _ _ plan).
Qed.

Lemma at_most_one_active_invariant_witness :
  let op := RecordPurchase "c1" "prod_pro" "o1" 2000 in
  at_most_one_active (fresh Scenario.deployment)
  /\ at_most_one_active (exec (call op) (fresh Scenario.deployment))
  /\ at_most_one_active Scenario.c1_holds_pro
  /\ recordPurchase "c1" "prod_pro" "o9" 2000 Scenario.c1_holds_pro
     = (Normal tt, Scenario.c1_holds_pro).
Proof.
  destruct at_most_one_active_invariant as (Hfresh & Hcall & Hreach & Hagain).
  split_and!.
  - apply Hfresh.
  - apply Hcall, Hfresh.
  - apply Hreach, c1_holds_pro_reachable.
  - apply (Hagain _ _ _ _ pro); [reflexivity|].
    unfold holds_active. apply Exists_exists. eexists. split.
    + vm_compute. apply list_elem_of_here.
    + by vm_compute.
Defined.

(** C3.  In every ledger state, recording the same (customer, product,
    order) twice, the product resolving to a plan, leaves exactly one active
    record for the (customer, plan) pair: the second call returns without
    changing the world the first one left. *)
Theorem recordPurchase_idempotent w c prod o now now' plan :
  reachable w ->
  productToPlanMap w !! prod = Some plan ->
  let once := exec (recordPurchase c prod o now) w in
  let twice := exec (recordPurchase c prod o now') once in
  recordPurchase c prod o now' once = (Normal tt, once)
  /\ twice = once
  /\ length (active_records c plan twice) = 1.
Proof.
  intros Hw Hplan once twice.
  assert (Hsecond : recordPurchase c prod o now' once = (Normal tt, once)).
  { apply (recordPurchase_owned _ _ _ _ plan).
    - subst once. by rewrite recordPurchase_productToPlanMap.
    - by apply recordPurchase_holds. }
  assert (Htwice : twice = once) by (subst twice; unfold exec; by rewrite Hsecond).
  split_and!; [done..|]. rewrite Htwice.
  assert (Hone : length (active_records c plan once) <= 1).
  { apply reachable_at_most_one_active.
    by apply (reachable_call (RecordPurchase c prod o now)). }
  assert (Hsome : 0 < length (active_records c plan once)).
  { apply Exists_filter_length. by apply recordPurchase_holds. }
  lia.
Qed.

Lemma recordPurchase_idempotent_witness :
  let once := exec (recordPurchase "c1" "prod_pro" "o1" 1000) Scenario.started in
  let twice := exec (recordPurchase "c1" "prod_pro" "o1" 2000) once in
  reachable Scenario.started
  /\ productToPlanMap Scenario.started !! "prod_pro" = Some pro
  /\ recordPurchase "c1" "prod_pro" "o1" 2000 once = (Normal tt, once)
  /\ twice = once
  /\ length (active_records "c1" pro twice) = 1.
Proof.
  split; [apply started_reachable|]. split; [reflexivity|].
  apply (recordPurchase_idempotent Scenario.started "c1" "prod_pro" "o1" 1000 2000 pro).
  - apply started_reachable.
  - reflexivity.
Defined.

(** What the module does once the SDK has returned an event: the [switch],
    then the acknowledgment.  Here the handlers are run, and a handler that
    throws shows. *)
Lemma billingWebhooks_with_validated
    (validateEvent : string -> WebhookHeaders -> string -> Completion Event.t)
    (onActive : string -> option string -> option string -> Z -> M unit)
    (onCanceled : string -> M unit)
    (c : Request) (now : Z) (w : World) (secret : string) (event : Event.t) :
  truthy (env w !! "POLAR_WEBHOOK_SECRET") = Some secret ->
  validateEvent (req_text c) (webhookHeaders c) secret = Normal event ->
  billingWebhooks_with validateEvent onActive onCanceled c now w
  = (dispatch_with onActive onCanceled event now;; mret received) w.
Proof.
  intros Hsecret Hevent.
  unfold billingWebhooks_with, mbind at 1, M_bind at 1, process_env, gets.
  by rewrite Hsecret, Hevent.
Qed.

(** The probes do see a dispatch: for a validated activation the first
    handler dispatched is [onSubscriptionActive], for a validated
    cancellation [onSubscriptionCanceled]. *)
Lemma first_dispatched_on_subscription_events
    (validateEvent : string -> WebhookHeaders -> string -> Completion Event.t)
    (c : Request) (now : Z) (w : World) (secret : string) (event : Event.t) :
  truthy (env w !! "POLAR_WEBHOOK_SECRET") = Some secret ->
  validateEvent (req_text c) (webhookHeaders c) secret = Normal event ->
  (Event.type event = "subscription.active" ->
   first_dispatched validateEvent c now w = Some "onSubscriptionActive")
  /\ (Event.type event = "subscription.canceled" ->
      first_dispatched validateEvent c now w = Some "onSubscriptionCanceled").
Proof.
  intros Hsecret Hevent. unfold first_dispatched.
  rewrite (billingWebhooks_with_validated _ _ _ _ _ _ secret event) by done.
  unfold dispatch_with, mbind, M_bind. split; intros ->; reflexivity.
Qed.

(** C4.  A webhook request that fails verification, the SDK throwing its
    [WebhookVerificationError] on the raw body, the three headers and the
    configured secret (tampered body, wrong or missing signature), is
    answered with the authentication rejection, status 401, and the world
    is left as it was.  No handler is dispatched: the answer and the world
    are the same whatever handlers the module is linked with, also handlers
    that write the store or throw, and the probes are not called.  So for
    the backend's endpoint no purchase record is created or changed. *)
Theorem verification_failure_rejected
    (validateEvent : string -> WebhookHeaders -> string -> Completion Event.t)
    (c : Request) (now : Z) (w : World) (secret message : string) :
  truthy (env w !! "POLAR_WEBHOOK_SECRET") = Some secret ->
  validateEvent (req_text c) (webhookHeaders c) secret
  = Throw (WebhookVerificationError message) ->
  (forall (onActive : string -> option string -> option string -> Z -> M unit)
          (onCanceled : string -> M unit),
      billingWebhooks_with validateEvent onActive onCanceled c now w
      = (Normal invalid_signature, w))
  /\ first_dispatched validateEvent c now w = None
  /\ billingWebhooks validateEvent c now w = (Normal invalid_signature, w)
  /\ Response.status invalid_signature = 401
  /\ purchaseStore (exec (billingWebhooks validateEvent c now) w) = purchaseStore w.
Proof.
  intros Hsecret Hthrow.
  assert (Hany : forall onActive onCanceled,
             billingWebhooks_with validateEvent onActive onCanceled c now w
             = (Normal invalid_signature, w)).
  { intros onActive onCanceled.
    unfold billingWebhooks_with, mbind, M_bind, process_env, gets.
    by rewrite Hsecret, Hthrow. }
  split_and!.
  - exact Hany.
  - unfold first_dispatched. by rewrite Hany.
  - apply Hany.
  - reflexivity.
  - unfold exec, billingWebhooks. by rewrite Hany.
Qed.

Lemma verification_failure_rejected_witness :
  let w := Scenario.c1_holds_pro in
  truthy (env w !! "POLAR_WEBHOOK_SECRET") = Some "whsec_poc"
  /\ Scenario.sdk (req_text Scenario.tampered)
       (webhookHeaders Scenario.tampered) "whsec_poc"
     = Throw (WebhookVerificationError "No matching signature found")
  /\ billingWebhooks_with Scenario.sdk
       probe_onSubscriptionActive probe_onSubscriptionCanceled Scenario.tampered 3000 w
     = (Normal invalid_signature, w)
  /\ first_dispatched Scenario.sdk Scenario.tampered 3000 w = None
  /\ billingWebhooks Scenario.sdk Scenario.tampered 3000 w
     = (Normal invalid_signature, w).
Proof.
  split; [reflexivity|]. split; [reflexivity|].
  destruct (verification_failure_rejected Scenario.sdk Scenario.tampered
              3000 Scenario.c1_holds_pro "whsec_poc" "No matching signature found"
              eq_refl eq_refl) as (Hany & Hnone & Hrun & _).
  split; [apply Hany|]. by split.
Defined.

(** C7.  Recording a product that the product to plan map does not hold is
    a no-op in every ledger state: the call returns, without an exception,
    and leaves the world, so the ledger, unchanged; the same holds of the
    activation handler handed such a product. *)
Theorem unknown_product_not_recorded w c prod o now :
  productToPlanMap w !! prod = None ->
  recordPurchase c prod o now w = (Normal tt, w)
  /\ onSubscriptionActive c (Some prod) (Some o) now w = (Normal tt, w).
Proof.
  intros Hnone. split; [by apply recordPurchase_unknown|].
  unfold onSubscriptionActive.
  destruct (truthy (Some prod)) as [prod'|] eqn:Hp; [|done].
  destruct (truthy (Some o)) as [o'|] eqn:Ho; [|done].
  simpl in Hp. case_decide; [done|]. injection Hp as <-.
  by apply recordPurchase_unknown.
Qed.

Lemma unknown_product_not_recorded_witness :
  let w := Scenario.c1_holds_pro in
  productToPlanMap w !! "prod_enterprise" = None
  /\ recordPurchase "c2" "prod_enterprise" "o2" 2000 w = (Normal tt, w).
Proof.
  split; [reflexivity|].
  apply (unknown_product_not_recorded Scenario.c1_holds_pro "c2" "prod_enterprise"
           "o2" 2000). reflexivity.
Defined.

(** C9.  An authenticated, parsed event whose type matches no [case] of the
    endpoint is acknowledged: the dispatch returns without touching the
    world and the answer is the success acknowledgment, status 200. *)
Theorem unknown_event_type_acknowledged
    (validateEvent : string -> WebhookHeaders -> string -> Completion Event.t)
    (c : Request) (now : Z) (w : World) (secret : string) (event : Event.t) :
  truthy (env w !! "POLAR_WEBHOOK_SECRET") = Some secret ->
  validateEvent (req_text c) (webhookHeaders c) secret = Normal event ->
  Event.type event ∉ handled_types ->
  billingWebhooks validateEvent c now w = (Normal received, w)
  /\ Response.status received = 200
  /\ purchaseStore (exec (billingWebhooks validateEvent c now) w) = purchaseStore w.
Proof.
  intros Hsecret Hevent Htype.
  assert (Hrun : billingWebhooks validateEvent c now w = (Normal received, w)).
  { unfold billingWebhooks, billingWebhooks_with, mbind, M_bind, process_env, gets.
    rewrite Hsecret, Hevent. unfold dispatch_with.
    repeat (case_decide as Heq;
            [exfalso; apply Htype; rewrite Heq; unfold handled_types; set_solver
            |clear Heq]).
    reflexivity. }
  split_and!; [done..|]. unfold exec. by rewrite Hrun.
Qed.

Lemma unknown_event_type_acknowledged_witness :
  let w := Scenario.c1_holds_pro in
  truthy (env w !! "POLAR_WEBHOOK_SECRET") = Some "whsec_poc"
  /\ Scenario.sdk (req_text Scenario.unknown_delivery)
       (webhookHeaders Scenario.unknown_delivery) "whsec_poc"
     = Normal Scenario.refund
  /\ (Event.type Scenario.refund ∉ handled_types)
  /\ billingWebhooks Scenario.sdk Scenario.unknown_delivery 3000 w
     = (Normal received, w).
Proof.
  assert (Hnot : Event.type Scenario.refund ∉ handled_types).
  { unfold handled_types. simpl. intros Hin.
    repeat (apply elem_of_cons in Hin as [Hin|Hin]; [discriminate Hin|]).
    by apply elem_of_nil in Hin. }
  split; [reflexivity|]. split; [reflexivity|]. split; [exact Hnot|].
  apply (unknown_event_type_acknowledged Scenario.sdk
           Scenario.unknown_delivery 3000 Scenario.c1_holds_pro "whsec_poc"
           Scenario.refund); [reflexivity | reflexivity | exact Hnot].
Defined.

(** C10.  In every ledger state the two queries agree: for every customer
    and plan, [hasPurchasedPlan] answers [true] exactly when the plan is
    among the identifiers [getPurchasedPlanIds] returns; neither changes
    the world, and for a customer the store does not know they answer
    [false] and the empty list. *)
Theorem queries_agree w c plan :
  exists (b : bool) (ids : list PlanId),
    hasPurchasedPlan c plan w = (Normal b, w)
    /\ getPurchasedPlanIds c w = (Normal ids, w)
    /\ (b = true <-> plan ∈ ids)
    /\ (purchaseStore w !! c = None -> b = false /\ ids = []).
Proof.
  eexists _, _. split; [apply hasPurchasedPlan_run|].
  split; [apply getPurchasedPlanIds_run|]. split.
  - rewrite bool_decide_eq_true, Exists_exists, list_elem_of_fmap. split.
    + intros (p & Hp & Hplan & Hactive). exists p. split; [done|].
      by apply list_elem_of_filter.
    + intros (p & -> & (Hactive & Hp)%list_elem_of_filter). by exists p.
  - intros Hnone. unfold purchases_of. rewrite Hnone. by split.
Qed.

Lemma queries_agree_witness :
  purchaseStore Scenario.c1_holds_pro !! "nobody" = None
  /\ hasPurchasedPlan "nobody" pro Scenario.c1_holds_pro
     = (Normal false, Scenario.c1_holds_pro)
  /\ getPurchasedPlanIds "nobody" Scenario.c1_holds_pro
     = (Normal [], Scenario.c1_holds_pro).
Proof.
  split; [reflexivity|].
  destruct (queries_agree Scenario.c1_holds_pro "nobody" pro)
    as (b & ids & Hhas & Hids & _ & Hunknown).
  destruct Hunknown as [-> ->]; [reflexivity|]. by split.
Defined.

(** C5, the claim as stated fails for cancellation.  With [c1] holding
    [pro]: the cancellation handler leaves the record active, the one
    operation documented to revoke or cancel sets it to [revoked], and no
    call of the service at all leaves a record of [c1] in status
    [canceled]. *)
Lemma no_call_cancels :
  Purchase.status <$> purchases_of "c1"
      (exec (onSubscriptionCanceled "c1") Scenario.c1_holds_pro) = [active]
  /\ Purchase.status <$> purchases_of "c1"
      (exec (revokePurchase "c1" pro) Scenario.c1_holds_pro) = [revoked]
  /\ ~ exists op : ServiceCall,
        records_in_status canceled "c1" (exec (call op) Scenario.c1_holds_pro) <> [].
Proof.
  split; [reflexivity|]. split; [reflexivity|].
  intros [op Hop]. apply Hop, reachable_never_canceled.
  apply reachable_call, c1_holds_pro_reachable.
Qed.

(** C5, amended.  In every ledger state [revokePurchase(customerId, planId)]
    sets the status of the active record of that (customer, plan) pair to
    [revoked], every other record staying as it is, after which the pair
    has no active record; it leaves the world unchanged when the pair has
    no active record.  The service has no operation that cancels: no record
    is ever in status [canceled], and [onSubscriptionCanceled] leaves the
    world unchanged. *)
Theorem revokePurchase_contract w c plan :
  reachable w ->
  (forall i p,
      purchases_of c w !! i = Some p -> active_for plan p ->
      revokePurchase c plan w
      = (Normal tt,
         with_purchaseStore
           (<[c := <[i := Purchase.set_status revoked p]> (purchases_of c w)]>) w)
      /\ active_records c plan (exec (revokePurchase c plan) w) = [])
  /\ (~ holds_active c plan w -> revokePurchase c plan w = (Normal tt, w))
  /\ (forall c', records_in_status canceled c' w = [])
  /\ (forall c', onSubscriptionCanceled c' w = (Normal tt, w)).
Proof.
  intros Hw. pose proof (reachable_at_most_one_active w Hw) as Hinv.
  split_and!.
  - intros i p Hi Hp. split; [|by apply revokePurchase_clears].
    apply revokePurchase_found, list_find_only; [apply Hinv | done..].
  - apply revokePurchase_none.
  - intros c'. by apply reachable_never_canceled.
  - reflexivity.
Qed.

Lemma revokePurchase_contract_witness :
  let w := Scenario.c1_holds_pro in
  let p := Purchase.mk "o1" "c1" "prod_pro" pro 1000 active in
  reachable w
  /\ purchases_of "c1" w !! 0 = Some p
  /\ active_for pro p
  /\ revokePurchase "c1" pro w
     = (Normal tt,
        with_purchaseStore
          (<["c1" := <[0 := Purchase.set_status revoked p]> (purchases_of "c1" w)]>) w)
  /\ ~ holds_active "c1" master w
  /\ revokePurchase "c1" master w = (Normal tt, w).
Proof.
  intros w p.
  assert (Hnot : ~ holds_active "c1" master w).
  { unfold holds_active. vm_compute purchases_of.
    intros [[Hplan _] | Hnil%Exists_nil]%Exists_cons; [discriminate Hplan | done]. }
  split; [apply c1_holds_pro_reachable|].
  split; [reflexivity|]. split; [by split|].
  split.
  - apply (proj1 (revokePurchase_contract w "c1" pro c1_holds_pro_reachable)
             0 p); [reflexivity | by split].
  - split; [exact Hnot|].
    apply (proj1 (proj2 (revokePurchase_contract w "c1" master
                           c1_holds_pro_reachable))), Hnot.
Defined.

(** C6.  For every customer and plan, in every ledger state: after
    recording a product that resolves to the plan and then revoking the
    (customer, plan) pair, [hasPurchasedPlan] answers [false], and recording
    a product of that plan again appends a new active record, the only
    active one of the pair. *)
Theorem revocation_not_blocking w c plan prod o now prod' o' now' :
  reachable w ->
  productToPlanMap w !! prod = Some plan ->
  productToPlanMap w !! prod' = Some plan ->
  let recorded := exec (recordPurchase c prod o now) w in
  let cleared := exec (revokePurchase c plan) recorded in
  let fresh_record := Purchase.mk o' c prod' plan now' active in
  hasPurchasedPlan c plan cleared = (Normal false, cleared)
  /\ recordPurchase c prod' o' now' cleared
     = (Normal tt,
        with_purchaseStore (<[c := purchases_of c cleared ++ [fresh_record]]>) cleared)
  /\ active_records c plan (exec (recordPurchase c prod' o' now') cleared)
     = [fresh_record].
Proof.
  intros Hw Hplan Hplan' recorded cleared fresh_record.
  assert (Hrecorded : reachable recorded)
    by apply (reachable_call (RecordPurchase c prod o now)), Hw.
  assert (Hnone : active_records c plan cleared = [])
    by apply revokePurchase_clears, reachable_at_most_one_active, Hrecorded.
  assert (Hnot : ~ Exists (active_for plan) (purchases_of c cleared))
    by apply (proj2 (not_Exists_filter_nil _ _)), Hnone.
  assert (Hmap : productToPlanMap cleared !! prod' = Some plan).
  { subst cleared recorded.
    by rewrite revokePurchase_productToPlanMap, recordPurchase_productToPlanMap. }
  assert (Hrun : recordPurchase c prod' o' now' cleared
                 = (Normal tt,
                    with_purchaseStore
                      (<[c := purchases_of c cleared ++ [fresh_record]]>) cleared))
    by by apply recordPurchase_new.
  split_and!.
  - rewrite hasPurchasedPlan_run. by rewrite bool_decide_eq_false_2.
  - exact Hrun.
  - unfold exec. rewrite Hrun. simpl. unfold active_records.
    rewrite purchases_of_set, decide_True by done.
    rewrite filter_app. fold (active_records c plan cleared). rewrite Hnone.
    simpl. rewrite filter_cons, decide_True by done. done.
Qed.

Lemma revocation_not_blocking_witness :
  let recorded := exec (recordPurchase "c1" "prod_pro" "o1" 1000) Scenario.started in
  let cleared := exec (revokePurchase "c1" pro) recorded in
  reachable Scenario.started
  /\ productToPlanMap Scenario.started !! "prod_pro" = Some pro
  /\ hasPurchasedPlan "c1" pro cleared = (Normal false, cleared)
  /\ active_records "c1" pro (exec (recordPurchase "c1" "prod_pro" "o2" 2000) cleared)
     = [Purchase.mk "o2" "c1" "prod_pro" pro 2000 active].
Proof.
  split; [apply started_reachable|]. split; [reflexivity|].
  destruct (revocation_not_blocking Scenario.started "c1" pro
              "prod_pro" "o1" 1000 "prod_pro" "o2" 2000
              started_reachable eq_refl eq_refl) as (Hhas & _ & Hactive).
  by split.
Defined.

(** The answer [already_purchased] is given on one path only: the body
    names a plan and the checkout customer holds it. *)
Lemma already_purchased_only_when_held
    (polar_checkouts_create : list CheckoutCreate -> CheckoutCreate -> Completion Session)
    (c : Request) (w w' : World) :
  createCheckout polar_checkouts_create c w = (Normal already_purchased, w') ->
  exists body plan,
    req_json c = Normal body
    /\ isValidPlan (get_planId body) = Some plan
    /\ holds_active "poc_user_001" plan w.
Proof.
  unfold createCheckout, mbind, M_bind, settle.
  destruct (req_json c) as [body|] eqn:Hbody; [|discriminate].
  destruct (isValidPlan (get_planId body)) as [plan|] eqn:Hplan; [|discriminate].
  rewrite hasPurchasedPlan_run. case_bool_decide as Hheld.
  { intros _. exists body, plan. split_and!; [reflexivity | exact Hplan | exact Hheld]. }
  unfold getProductId, mbind, M_bind, process_env, gets.
  destruct plan.
  all: destruct (truthy (env w !! _)); [|discriminate].
  all: unfold polar_checkouts; simpl.
  all: destruct (polar_checkouts_create _ _); discriminate.
Qed.

(** C8.  A checkout request naming a plan that the requesting customer (the
    POC's one customer, [poc_user_001]) already holds active is rejected
    with the "already purchased" error before the provider is asked for a
    session: the answer is [already_purchased], the world, so the ledger and
    the trace of provider calls, is unchanged; and that answer differs from
    the rejection of an unknown plan and is given in no other case. *)
Theorem duplicate_checkout_rejected
    (polar_checkouts_create : list CheckoutCreate -> CheckoutCreate -> Completion Session)
    (c : Request) (w : World) (body : Json) (plan : PlanId) :
  req_json c = Normal body ->
  isValidPlan (get_planId body) = Some plan ->
  holds_active "poc_user_001" plan w ->
  createCheckout polar_checkouts_create c w = (Normal already_purchased, w)
  /\ polarCheckouts (exec (createCheckout polar_checkouts_create c) w)
     = polarCheckouts w
  /\ purchaseStore (exec (createCheckout polar_checkouts_create c) w)
     = purchaseStore w
  /\ already_purchased <> invalid_plan
  /\ (forall c' w0 w1,
        createCheckout polar_checkouts_create c' w0 = (Normal already_purchased, w1) ->
        exists body' plan',
          req_json c' = Normal body'
          /\ isValidPlan (get_planId body') = Some plan'
          /\ holds_active "poc_user_001" plan' w0).
Proof.
  intros Hbody Hplan Hheld.
  assert (Hrun : createCheckout polar_checkouts_create c w
                 = (Normal already_purchased, w)).
  { unfold createCheckout, mbind, M_bind, settle. rewrite Hbody, Hplan.
    rewrite hasPurchasedPlan_run. by rewrite bool_decide_eq_true_2. }
  split_and!; [done | unfold exec; by rewrite Hrun.. | discriminate |].
  intros c' w0 w1. apply already_purchased_only_when_held.
Qed.

Lemma duplicate_checkout_rejected_witness :
  let w := Scenario.poc_user_holds_pro in
  let c := Scenario.checkout_of "pro" in
  req_json c = Normal (JObj [("planId", JStr "pro")])
  /\ isValidPlan (get_planId (JObj [("planId", JStr "pro")])) = Some pro
  /\ holds_active "poc_user_001" pro w
  /\ createCheckout Scenario.provider c w = (Normal already_purchased, w).
Proof.
  intros w c.
  assert (Hheld : holds_active "poc_user_001" pro w).
  { unfold holds_active. vm_compute purchases_of. by apply Exists_cons_hd. }
  split; [reflexivity|]. split; [reflexivity|]. split; [exact Hheld|].
  apply (duplicate_checkout_rejected Scenario.provider c w
           (JObj [("planId", JStr "pro")]) pro); [reflexivity | reflexivity | exact Hheld].
Defined.

(** * Further properties of the code *)

(** ** The product to plan map *)

(** What [initProductPlanMapping] writes: the pro product first, the master
    product over it. *)
Lemma initProductPlanMapping_world w :
  exec initProductPlanMapping w
  = with_productToPlanMap
      (fun m =>
         let m1 := match truthy (env w !! "POLAR_PRO_PRODUCT_ID") with
                   | Some id => <[id := pro]> m
                   | None => m
                   end in
         match truthy (env w !! "POLAR_MASTER_PRODUCT_ID") with
         | Some id => <[id := master]> m1
         | None => m1
         end) w.
Proof.
  unfold exec, initProductPlanMapping, mbind, M_bind, process_env, gets, modify,
    mret, M_ret. simpl.
  destruct (truthy (env w !! "POLAR_PRO_PRODUCT_ID")),
    (truthy (env w !! "POLAR_MASTER_PRODUCT_ID")); by destruct w.
Qed.

Lemma initProductPlanMapping_env w : env (exec initProductPlanMapping w) = env w.
Proof. by rewrite initProductPlanMapping_world. Qed.

(** The map after [initProductPlanMapping], key by key. *)
Lemma initProductPlanMapping_lookup w prod :
  productToPlanMap (exec initProductPlanMapping w) !! prod
  = if decide (truthy (env w !! "POLAR_MASTER_PRODUCT_ID") = Some prod) then Some master
    else if decide (truthy (env w !! "POLAR_PRO_PRODUCT_ID") = Some prod) then Some pro
    else productToPlanMap w !! prod.
Proof.
  rewrite initProductPlanMapping_world. simpl.
  destruct (truthy (env w !! "POLAR_MASTER_PRODUCT_ID")) as [m|],
    (truthy (env w !! "POLAR_PRO_PRODUCT_ID")) as [p|];
    repeat case_decide; simplify_eq;
    repeat match goal with
           | H : Some ?a <> Some ?b |- _ =>
               assert (a <> b) by congruence; clear H
           end;
    by simplify_map_eq.
Qed.

(** X1.  After [initProductPlanMapping], in any world, a product id resolves
    to [master] when it is the (non-empty) master product of the
    environment, else to [pro] when it is the (non-empty) pro product, else
    to what it resolved to before: with one id configured for both plans,
    the master plan wins. *)
Theorem resolver_after_initialisation w prod :
  productToPlanMap (exec initProductPlanMapping w) !! prod
  = if decide (truthy (env w !! "POLAR_MASTER_PRODUCT_ID") = Some prod) then Some master
    else if decide (truthy (env w !! "POLAR_PRO_PRODUCT_ID") = Some prod) then Some pro
    else productToPlanMap w !! prod.
Proof.
  rewrite initProductPlanMapping_world. simpl.
  destruct (truthy (env w !! "POLAR_MASTER_PRODUCT_ID")) as [m|],
    (truthy (env w !! "POLAR_PRO_PRODUCT_ID")) as [p|];
    repeat case_decide; simplify_eq;
    repeat match goal with
           | H : Some ?a <> Some ?b |- _ =>
               assert (a <> b) by congruence; clear H
           end;
    by simplify_map_eq.
Qed.

(** X2.  [initProductPlanMapping] is idempotent: called again it leaves the
    world exactly as the first call left it; and it never touches the
    purchase store. *)
Theorem initProductPlanMapping_idempotent w :
  exec initProductPlanMapping (exec initProductPlanMapping w)
  = exec initProductPlanMapping w
  /\ purchaseStore (exec initProductPlanMapping w) = purchaseStore w.
Proof.
  split; [|by rewrite initProductPlanMapping_world].
  assert (Hmap : productToPlanMap (exec initProductPlanMapping
                                     (exec initProductPlanMapping w))
                 = productToPlanMap (exec initProductPlanMapping w)).
  { apply map_eq. intros prod.
    rewrite (initProductPlanMapping_lookup (exec initProductPlanMapping w)).
    rewrite initProductPlanMapping_env, initProductPlanMapping_lookup.
    by repeat case_decide. }
  rewrite (initProductPlanMapping_world (exec initProductPlanMapping w)) in *.
  rewrite initProductPlanMapping_env in *.
  rewrite (initProductPlanMapping_world w) in *. simpl in *.
  unfold with_productToPlanMap in *. simpl in *. by rewrite Hmap.
Qed.

(** No call of the service writes [process.env]. *)
Lemma call_env op w : env (exec (call op) w) = env w.
Proof.
  destruct op; simpl; try reflexivity.
  - apply initProductPlanMapping_env.
  - by destruct (recordPurchase_cases customerId productId orderId now w)
      as [-> | (? & _ & _ & ->)].
  - by destruct (revokePurchase_cases customerId planId w)
      as [-> | (? & ? & _ & ->)].
  - destruct (onSubscriptionActive_cases customerId productId subscriptionId now w)
      as [-> | (prod & sid & _ & _ & ->)]; [done|].
    by destruct (recordPurchase_cases customerId prod sid now w)
      as [-> | (? & _ & _ & ->)].
Qed.

(** Only the initialisation writes the map. *)
Lemma call_productToPlanMap op w :
  op <> InitProductPlanMapping ->
  productToPlanMap (exec (call op) w) = productToPlanMap w.
Proof.
  intros Hop. destruct op; simpl; try done.
  - apply recordPurchase_productToPlanMap.
  - apply revokePurchase_productToPlanMap.
  - destruct (onSubscriptionActive_cases customerId productId subscriptionId now w)
      as [-> | (prod & sid & _ & _ & ->)]; [done|].
    apply recordPurchase_productToPlanMap.
Qed.

(** In a running process the map is empty or what start-up makes of the
    environment. *)
Lemma reachable_productToPlanMap w :
  reachable w ->
  productToPlanMap w = ∅
  \/ productToPlanMap w = productToPlanMap (startup (env w)).
Proof.
  induction 1 as [e | op w Hw IH | args w Hw IH].
  - by left.
  - rewrite call_env.
    assert (op = InitProductPlanMapping \/ op <> InitProductPlanMapping)
      as [->|Hop] by (destruct op; (by left) || (by right)).
    + right. simpl. apply map_eq. intros prod. unfold startup.
      rewrite !initProductPlanMapping_lookup. simpl.
      repeat case_decide; try done.
      destruct IH as [-> | ->]; [done|].
      unfold startup. rewrite initProductPlanMapping_lookup. simpl.
      by rewrite !decide_False by done.
    + by rewrite call_productToPlanMap.
  - exact IH.
Qed.

(** A resolved product is the truthy value of its plan's variable. *)
Lemma reachable_resolves_truthy w prod plan :
  reachable w ->
  productToPlanMap w !! prod = Some plan ->
  truthy (env w !! product_variable plan) = Some prod.
Proof.
  intros Hw Hplan.
  destruct (reachable_productToPlanMap w Hw) as [Hmap | Hmap];
    rewrite Hmap in Hplan; [by rewrite lookup_empty in Hplan|].
  unfold startup in Hplan. rewrite initProductPlanMapping_lookup in Hplan.
  simpl in Hplan. by repeat case_decide; simplify_eq.
Qed.

Lemma truthy_Some v s : truthy v = Some s <-> v = Some s /\ s <> "".
Proof.
  unfold truthy. destruct v as [id|]; [|by split; [|intros [? _]]].
  case_decide as Hid; split.
  - done.
  - by intros [[= ->] Hs].
  - by intros [= ->].
  - by intros [[= ->] _].
Qed.

(** X3.  In every world of a running process a product id resolves only to
    a plan whose environment variable holds that very id, and never the
    empty id: the map has no entry that the configuration does not back. *)
Theorem resolved_products_are_configured w prod plan :
  reachable w ->
  productToPlanMap w !! prod = Some plan ->
  env w !! product_variable plan = Some prod /\ prod <> "".
Proof.
  intros Hw Hplan. by apply truthy_Some, reachable_resolves_truthy.
Qed.

Lemma resolved_products_are_configured_witness :
  reachable Scenario.c1_holds_pro
  /\ productToPlanMap Scenario.c1_holds_pro !! "prod_master" = Some master
  /\ env Scenario.c1_holds_pro !! product_variable master = Some "prod_master".
Proof.
  split; [apply c1_holds_pro_reachable|]. split; [reflexivity|].
  apply (resolved_products_are_configured Scenario.c1_holds_pro "prod_master" master
           c1_holds_pro_reachable eq_refl).
Defined.

(** ** What the stored records keep *)

(** Every stored record carries the plan its product resolves to. *)
Lemma reachable_records_resolve w c p :
  reachable w ->
  p ∈ purchases_of c w ->
  productToPlanMap w !! Purchase.productId p = Some (Purchase.planId p).
Proof.
  intros Hw. revert c p.
  induction Hw as [e | op w Hw IH | args w Hw IH]; intros c p.
  - rewrite purchases_of_fresh. by intros ?%elem_of_nil.
  - assert (Hrecord : forall c' prod o now,
               p ∈ purchases_of c (exec (recordPurchase c' prod o now) w) ->
               productToPlanMap (exec (recordPurchase c' prod o now) w)
                 !! Purchase.productId p = Some (Purchase.planId p)).
    { intros c' prod o now. rewrite recordPurchase_productToPlanMap.
      destruct (recordPurchase_cases c' prod o now w)
        as [-> | (plan & Hplan & _ & ->)]; [apply IH|].
      rewrite purchases_of_set. case_decide as Hc; [subst c'|apply IH].
      intros [Hp | ->%list_elem_of_singleton]%elem_of_app; [by eapply IH | done]. }
    destruct op; simpl; try apply IH.
    + rewrite initProductPlanMapping_purchases. intros Hp.
      pose proof (IH c p Hp) as Hplan.
      rewrite initProductPlanMapping_lookup.
      destruct (reachable_productToPlanMap w Hw) as [Hmap | Hmap];
        rewrite Hmap in Hplan |- *; [by rewrite lookup_empty in Hplan|].
      unfold startup in *. rewrite initProductPlanMapping_lookup in *.
      simpl in *. by repeat case_decide.
    + apply Hrecord.
    + rewrite revokePurchase_productToPlanMap.
      destruct (revokePurchase_cases customerId planId w)
        as [-> | (i & q & Hf & ->)]; [apply IH|].
      apply list_find_Some in Hf as (Hi & _ & _).
      rewrite purchases_of_set. case_decide as Hc; [subst customerId|apply IH].
      intros [-> | Hp]%elem_of_list_insert_inv; [|by eapply IH].
      simpl. eapply IH. by eapply list_elem_of_lookup_2.
    + destruct (onSubscriptionActive_cases customerId productId subscriptionId now w)
        as [-> | (prod & sid & _ & _ & ->)]; [apply IH|]. apply Hrecord.
  - apply IH.
Qed.

(** X4.  In every world of a running process each stored record is filed
    under the customer it names, and the plan it carries is the one its
    product id resolves to in the product to plan map. *)
Theorem records_are_consistent w c p :
  reachable w ->
  p ∈ purchases_of c w ->
  Purchase.customerId p = c
  /\ productToPlanMap w !! Purchase.productId p = Some (Purchase.planId p).
Proof.
  intros Hw Hp. split.
  - by apply (reachable_filed_by_customer w Hw).
  - by apply (reachable_records_resolve w c).
Qed.

Lemma records_are_consistent_witness :
  let p := Purchase.mk "o1" "c1" "prod_pro" pro 1000 active in
  reachable Scenario.c1_holds_pro
  /\ p ∈ purchases_of "c1" Scenario.c1_holds_pro
  /\ Purchase.customerId p = "c1"
  /\ productToPlanMap Scenario.c1_holds_pro !! Purchase.productId p
     = Some (Purchase.planId p).
Proof.
  intros p. assert (Hp : p ∈ purchases_of "c1" Scenario.c1_holds_pro).
  { vm_compute purchases_of. apply list_elem_of_here. }
  split; [apply c1_holds_pro_reachable|]. split; [exact Hp|].
  apply (records_are_consistent Scenario.c1_holds_pro "c1" p
           c1_holds_pro_reachable Hp).
Defined.

(** ** The store only grows, and a status only moves to revoked *)

Lemma same_but_status_refl p : same_but_status p p.
Proof. unfold same_but_status. by destruct p. Qed.

Lemma same_but_status_trans p q r :
  same_but_status p q -> same_but_status q r -> same_but_status p r.
Proof. unfold same_but_status. intros -> ->. by destruct p. Qed.

Lemma status_step_trans s1 s2 s3 :
  status_step s1 s2 -> status_step s2 s3 -> status_step s1 s3.
Proof.
  unfold status_step. intros [-> | [-> ->]] [-> | [? ->]]; auto; done.
Qed.

Lemma call_keeps_records op w c i p :
  purchases_of c w !! i = Some p ->
  exists q,
    purchases_of c (exec (call op) w) !! i = Some q
    /\ same_but_status p q
    /\ status_step (Purchase.status p) (Purchase.status q).
Proof.
  intros Hi.
  assert (Hsame : exists q, purchases_of c w !! i = Some q /\ same_but_status p q
                            /\ status_step (Purchase.status p) (Purchase.status q)).
  { exists p. split_and!; [done | apply same_but_status_refl | by left]. }
  assert (Hrecord : forall c' prod o now,
             exists q,
               purchases_of c (exec (recordPurchase c' prod o now) w) !! i = Some q
               /\ same_but_status p q
               /\ status_step (Purchase.status p) (Purchase.status q)).
  { intros c' prod o now. destruct (recordPurchase_cases c' prod o now w)
      as [-> | (plan & _ & _ & ->)]; [done|].
    rewrite purchases_of_set. case_decide as Hc; [subst c'|done].
    exists p. rewrite lookup_app_l by by eapply lookup_lt_Some.
    split_and!; [done | apply same_but_status_refl | by left]. }
  destruct op; simpl; [| apply Hrecord | done | done | done | | | done | done].
  - by rewrite initProductPlanMapping_purchases.
  - destruct (revokePurchase_cases customerId planId w)
      as [-> | (j & r & Hf & ->)]; [done|].
    apply list_find_Some in Hf as (Hj & [_ Hactive] & _).
    rewrite purchases_of_set. case_decide as Hc; [subst customerId|done].
    destruct (decide (j = i)) as [->|Hji].
    + rewrite Hi in Hj. injection Hj as <-.
      exists (Purchase.set_status revoked p).
      rewrite list_lookup_insert_eq by by eapply lookup_lt_Some.
      split_and!; [done | by unfold same_but_status | by right].
    + exists p. rewrite list_lookup_insert_ne by done.
      split_and!; [done | apply same_but_status_refl | by left].
  - destruct (onSubscriptionActive_cases customerId productId subscriptionId now w)
      as [-> | (prod & sid & _ & _ & ->)]; [done|]. apply Hrecord.
Qed.

Lemma run_keeps_records ops w c i p :
  purchases_of c w !! i = Some p ->
  exists q,
    purchases_of c (run ops w) !! i = Some q
    /\ same_but_status p q
    /\ status_step (Purchase.status p) (Purchase.status q).
Proof.
  revert w p. induction ops as [|op ops IH]; intros w p Hi.
  - exists p. split_and!; [done | apply same_but_status_refl | by left].
  - destruct (call_keeps_records op w c i p Hi) as (q & Hq & Hpq & Hstep).
    destruct (IH (exec (call op) w) q Hq) as (r & Hr & Hqr & Hstep').
    exists r. split_and!; [done | by eapply same_but_status_trans
                          | by eapply status_step_trans].
Qed.

(** X5.  Whatever run of calls into the service follows, a stored record
    stays at its position under its customer: no call deletes, moves or
    rewrites it, but for its status, which either stays or goes from active
    to revoked; a record once revoked (or canceled) is never changed again,
    and never becomes active. *)
Theorem records_are_kept ops w c i p :
  purchases_of c w !! i = Some p ->
  exists q,
    purchases_of c (run ops w) !! i = Some q
    /\ same_but_status p q
    /\ status_step (Purchase.status p) (Purchase.status q)
    /\ (Purchase.status p <> active -> q = p).
Proof.
  intros Hi. destruct (run_keeps_records ops w c i p Hi) as (q & Hq & Hpq & Hstep).
  exists q. split_and!; [done..|].
  intros Hnot. destruct Hstep as [Hs | [Hs _]]; [|done].
  unfold same_but_status in Hpq. rewrite Hpq, Hs. by destruct p.
Qed.

Lemma records_are_kept_witness :
  let p := Purchase.mk "o1" "c1" "prod_pro" pro 1000 active in
  let ops := [RevokePurchase "c1" pro; RecordPurchase "c1" "prod_pro" "o2" 2000] in
  purchases_of "c1" Scenario.c1_holds_pro !! 0 = Some p
  /\ exists q,
       purchases_of "c1" (run ops Scenario.c1_holds_pro) !! 0 = Some q
       /\ same_but_status p q
       /\ status_step (Purchase.status p) (Purchase.status q)
       /\ (Purchase.status p <> active -> q = p).
Proof.
  intros p ops. split; [reflexivity|].
  apply (records_are_kept ops Scenario.c1_holds_pro "c1" 0 p). reflexivity.
Defined.

(** ** The plans a customer holds *)

(** With at most one active record per plan, the active records name each
    plan once. *)
Lemma active_plans_NoDup (l : list Purchase.t) :
  (forall plan, length (filter (active_for plan) l) <= 1) ->
  NoDup (Purchase.planId <$> filter (fun p => Purchase.status p = active) l).
Proof.
  induction l as [|x l IH]; intros Hone; [constructor|].
  assert (Hl : forall plan, length (filter (active_for plan) l) <= 1).
  { intros plan. specialize (Hone plan). rewrite filter_cons in Hone.
    destruct (decide (active_for plan x)); simpl in Hone; lia. }
  rewrite filter_cons. destruct (decide (Purchase.status x = active)) as [Hx|Hx];
    [|by apply IH].
  rewrite fmap_cons. constructor; [|by apply IH].
  intros (y & Hplan & (Hy & Hin)%list_elem_of_filter)%list_elem_of_fmap.
  specialize (Hone (Purchase.planId x)). rewrite filter_cons in Hone.
  rewrite decide_True in Hone by done. simpl in Hone.
  assert (0 < length (filter (active_for (Purchase.planId x)) l)); [|lia].
  apply Exists_filter_length, Exists_exists. exists y. by split.
Qed.

(** X6.  In every world of a running process [getPurchasedPlanIds] returns
    each plan at most once, so at most two identifiers, whatever the number
    of records stored for the customer. *)
Theorem purchased_plan_ids_distinct w c :
  reachable w ->
  exists ids,
    getPurchasedPlanIds c w = (Normal ids, w)
    /\ NoDup ids
    /\ length ids <= 2.
Proof.
  intros Hw. eexists. split; [apply getPurchasedPlanIds_run|].
  assert (Hnodup : NoDup (Purchase.planId <$>
                          filter (fun p => Purchase.status p = active)
                            (purchases_of c w))).
  { apply active_plans_NoDup. intros plan.
    apply (reachable_at_most_one_active w Hw c plan). }
  split; [done|].
  change 2 with (length [pro; master]). apply submseteq_length.
  apply NoDup_submseteq; [done|]. intros [] _; set_solver.
Qed.

Lemma purchased_plan_ids_distinct_witness :
  reachable Scenario.c1_holds_pro
  /\ exists ids,
       getPurchasedPlanIds "c1" Scenario.c1_holds_pro
       = (Normal ids, Scenario.c1_holds_pro)
       /\ NoDup ids
       /\ length ids <= 2.
Proof.
  split; [apply c1_holds_pro_reachable|].
  apply (purchased_plan_ids_distinct Scenario.c1_holds_pro "c1"
           c1_holds_pro_reachable).
Defined.

(** ** Calls do not reach beyond their (customer, plan) pair *)

Section FilterInsert.
Context {A : Type} (P : A -> Prop) `{!forall x, Decision (P x)}.

(** Overwriting a non-match by a non-match leaves the matches as they are. *)
Lemma filter_insert_outside (l : list A) (i : nat) (x y : A) :
  l !! i = Some x -> ~ P x -> ~ P y ->
  filter P (<[i := y]> l) = filter P l.
Proof.
  revert i. induction l as [|z l IH]; intros [|i] Hi Hx Hy; simpl in *; try done.
  - injection Hi as ->. by rewrite !filter_cons, !decide_False.
  - rewrite !filter_cons. by rewrite (IH i).
Qed.
End FilterInsert.

Lemma recordPurchase_frame c prod o now c' q w :
  c' <> c \/ productToPlanMap w !! prod <> Some q ->
  active_records c' q (exec (recordPurchase c prod o now) w) = active_records c' q w.
Proof.
  intros Hother. destruct (recordPurchase_cases c prod o now w)
    as [-> | (plan & Hplan & _ & ->)]; [done|].
  unfold active_records. rewrite purchases_of_set.
  case_decide as Hc; [subst c'|done].
  destruct Hother as [Hc | Hq]; [done|].
  rewrite filter_app, filter_cons, filter_nil, decide_False, app_nil_r; [done|].
  intros ->%active_for_new. by apply Hq.
Qed.

Lemma revokePurchase_frame c plan c' q w :
  c' <> c \/ q <> plan ->
  active_records c' q (exec (revokePurchase c plan) w) = active_records c' q w.
Proof.
  intros Hother. destruct (revokePurchase_cases c plan w)
    as [-> | (i & p & Hf & ->)]; [done|].
  apply list_find_Some in Hf as (Hi & [Hplan _] & _).
  unfold active_records. rewrite purchases_of_set.
  case_decide as Hc; [subst c'|done].
  destruct Hother as [Hc | Hq]; [done|].
  apply (filter_insert_outside _ _ i p); [done | | apply not_active_revoked].
  intros [Hp _]. by rewrite Hplan in Hp.
Qed.

(** X7.  Recording and revoking stay within their (customer, plan) pair:
    the active records of every other pair are the same before and after.
    For [recordPurchase] the pair is the customer and the plan the product
    resolves to; so a customer holding one plan keeps it when the other is
    bought or revoked, and no customer is touched by another's calls. *)
Theorem calls_stay_within_their_pair w c c' q :
  (forall prod o now,
      c' <> c \/ productToPlanMap w !! prod <> Some q ->
      active_records c' q (exec (recordPurchase c prod o now) w)
      = active_records c' q w)
  /\ (forall plan,
        c' <> c \/ q <> plan ->
        active_records c' q (exec (revokePurchase c plan) w)
        = active_records c' q w).
Proof.
  split.
  - intros prod o now. apply recordPurchase_frame.
  - intros plan. apply revokePurchase_frame.
Qed.

Lemma calls_stay_within_their_pair_witness :
  let w := Scenario.c1_holds_pro in
  productToPlanMap w !! "prod_master" <> Some pro
  /\ active_records "c1" pro (exec (recordPurchase "c1" "prod_master" "o2" 2000) w)
     = active_records "c1" pro w
  /\ active_records "c1" pro (exec (revokePurchase "c1" master) w)
     = active_records "c1" pro w.
Proof.
  intros w. assert (Hne : productToPlanMap w !! "prod_master" <> Some pro)
    by (vm_compute; discriminate).
  destruct (calls_stay_within_their_pair w "c1" "c1" pro) as [Hrecord Hrevoke].
  split; [exact Hne|]. split.
  - apply Hrecord. by right.
  - apply Hrevoke. by right.
Defined.

(** X8.  In every world of a running process revoking is idempotent: after
    [revokePurchase] the customer no longer holds the plan, and a second
    [revokePurchase] for the pair returns with the world unchanged. *)
Theorem revokePurchase_idempotent w c plan :
  reachable w ->
  let cleared := exec (revokePurchase c plan) w in
  hasPurchasedPlan c plan cleared = (Normal false, cleared)
  /\ revokePurchase c plan cleared = (Normal tt, cleared).
Proof.
  intros Hw cleared.
  assert (Hnone : ~ Exists (active_for plan) (purchases_of c cleared)).
  { apply (proj2 (not_Exists_filter_nil _ _)).
    by apply revokePurchase_clears, reachable_at_most_one_active. }
  split.
  - rewrite hasPurchasedPlan_run. by rewrite bool_decide_eq_false_2.
  - by apply revokePurchase_none.
Qed.

Lemma revokePurchase_idempotent_witness :
  let cleared := exec (revokePurchase "c1" pro) Scenario.c1_holds_pro in
  reachable Scenario.c1_holds_pro
  /\ hasPurchasedPlan "c1" pro cleared = (Normal false, cleared)
  /\ revokePurchase "c1" pro cleared = (Normal tt, cleared).
Proof.
  split; [apply c1_holds_pro_reachable|].
  apply (revokePurchase_idempotent Scenario.c1_holds_pro "c1" pro
           c1_holds_pro_reachable).
Defined.

(** ** The plan guard, the webhook endpoint and the health check *)

(** The guard lets a value through only when it is the string naming a plan. *)
Lemma isValidPlan_exact_1 v plan :
  isValidPlan v = Some plan -> v = Some (JStr (PlanId_to_string plan)).
Proof.
  destruct v as [[]|]; simpl; try done.
  repeat case_decide; intros [= <-]; by subst.
Qed.

Lemma isValidPlan_exact_2 v plan :
  v = Some (JStr (PlanId_to_string plan)) -> isValidPlan v = Some plan.
Proof. intros ->. by destruct plan. Qed.

Section WebhookAnswers.
Variable validateEvent : string -> WebhookHeaders -> string -> Completion Event.t.

(** The answer of the webhook endpoint, by the secret and the outcome of
    the verification alone. *)
Lemma billingWebhooks_run c now w :
  billingWebhooks validateEvent c now w
  = (Normal
       match truthy (env w !! "POLAR_WEBHOOK_SECRET") with
       | None => server_misconfigured
       | Some secret =>
           match validateEvent (req_text c) (webhookHeaders c) secret with
           | Normal _ => received
           | Throw (WebhookVerificationError _) => invalid_signature
           | Throw _ => invalid_webhook
           end
       end, w).
Proof.
  unfold billingWebhooks, billingWebhooks_with, mbind, M_bind, process_env, gets.
  destruct (truthy (env w !! "POLAR_WEBHOOK_SECRET")) as [secret|]; [|done].
  destruct (validateEvent _ _ secret) as [event|[]]; try done.
  by rewrite dispatch_run.
Qed.

(** X10.  The webhook endpoint never throws and never writes: for every
    request, every behaviour of the SDK and every event type (also
    [subscription.revoked], [subscription.canceled] and [order.paid]) it
    answers and leaves the purchase store, the product map and the rest of
    the world as they were.  It answers 200 exactly when the secret is set
    and the SDK returns an event, 500 exactly when the secret is unset or
    empty, and 401 exactly when the secret is set and the SDK throws its
    [WebhookVerificationError]; what is left is answered 400. *)
Theorem billingWebhooks_never_writes c now w :
  exists r,
    billingWebhooks validateEvent c now w = (Normal r, w)
    /\ Response.status r ∈ [200; 400; 401; 500]
    /\ (Response.status r = 200 <->
        exists secret event,
          truthy (env w !! "POLAR_WEBHOOK_SECRET") = Some secret
          /\ validateEvent (req_text c) (webhookHeaders c) secret = Normal event)
    /\ (Response.status r = 500 <-> truthy (env w !! "POLAR_WEBHOOK_SECRET") = None)
    /\ (Response.status r = 401 <->
        exists secret message,
          truthy (env w !! "POLAR_WEBHOOK_SECRET") = Some secret
          /\ validateEvent (req_text c) (webhookHeaders c) secret
             = Throw (WebhookVerificationError message)).
Proof.
  eexists. split; [apply billingWebhooks_run|].
  destruct (truthy (env w !! "POLAR_WEBHOOK_SECRET")) as [secret|].
  - destruct (validateEvent _ _ secret) as [event|[message|message|name]] eqn:Hv;
      simpl; (split; [set_solver|]); split_and!; split;
      try done; try (by intros (? & ? & [= <-] & ?));
      try (by intros (? & ? & [= <-] & Hv'); rewrite Hv in Hv').
    + intros _. by exists secret, event.
    + intros _. by exists secret, message.
  - simpl. split; [set_solver|]. split_and!; split; try done;
      by intros (? & ? & ? & _).
Qed.

(** X11.  The health check tells the truth about the endpoints: its flag
    [has_webhook_secret] is [false] exactly when the webhook endpoint
    answers every request with "Server misconfigured", and its flags
    [has_pro_product] and [has_master_product] are [true] exactly when
    [getProductId] returns a product for the plan instead of throwing.  An
    empty variable counts as unset in both places. *)
Theorem health_check_agrees w :
  exists has_token has_secret has_pro has_master : bool,
    healthRoute w
    = (Normal
         (c_json
            (JObj [("status", JStr "ok");
                   ("message", JStr "Polar Payments POC Backend");
                   ("env_check",
                    JObj [("has_polar_token", JBool has_token);
                          ("has_webhook_secret", JBool has_secret);
                          ("has_pro_product", JBool has_pro);
                          ("has_master_product", JBool has_master)])])
            200), w)
    /\ (has_secret = false <->
        forall c now,
          billingWebhooks validateEvent c now w = (Normal server_misconfigured, w))
    /\ (has_pro = true <-> exists id, getProductId pro w = (Normal id, w))
    /\ (has_master = true <-> exists id, getProductId master w = (Normal id, w)).
Proof.
  eexists _, _, _, _. split; [reflexivity|].
  unfold to_boolean, getProductId, mbind, M_bind, process_env, gets. split_and!.
  - split.
    + intros Hflag c now. rewrite billingWebhooks_run.
      by destruct (truthy (env w !! "POLAR_WEBHOOK_SECRET")).
    + intros Hall. specialize (Hall (mkRequest "" ∅ (Normal JNull) ∅) 0%Z).
      rewrite billingWebhooks_run in Hall.
      destruct (truthy (env w !! "POLAR_WEBHOOK_SECRET")) as [secret|]; [|done].
      by destruct (validateEvent _ _ secret) as [|[]].
  - destruct (truthy (env w !! "POLAR_PRO_PRODUCT_ID")) as [id|]; split;
      try done; [by exists id | by intros [? ?]].
  - destruct (truthy (env w !! "POLAR_MASTER_PRODUCT_ID")) as [id|]; split;
      try done; [by exists id | by intros [? ?]].
Qed.

End WebhookAnswers.

(** ** The checkout endpoint *)

Lemma getProductId_run plan w :
  getProductId plan w
  = match truthy (env w !! product_variable plan) with
    | Some id => (Normal id, w)
    | None =>
        (Throw (Error ("Missing product ID for plan: " +:+ PlanId_to_string plan)), w)
    end.
Proof.
  unfold getProductId, mbind, M_bind, process_env, gets.
  destruct plan; simpl;
    match goal with |- context [truthy ?v] => by destruct (truthy v) end.
Qed.

(** The customer holds a plan exactly when the plan is among the active ones. *)
Lemma holds_active_listed c plan w :
  holds_active c plan w
  <-> plan ∈ Purchase.planId <$> records_in_status active c w.
Proof.
  unfold holds_active, records_in_status.
  rewrite Exists_exists, list_elem_of_fmap. split.
  - intros (p & Hp & Hplan & Hactive). exists p. split; [done|].
    by apply list_elem_of_filter.
  - intros (p & -> & (Hactive & Hp)%list_elem_of_filter). by exists p.
Qed.

Section CheckoutAnswers.
Variable polar_checkouts_create :
  list CheckoutCreate -> CheckoutCreate -> Completion Session.

(** The checkout endpoint, path by path. *)
Lemma createCheckout_run c w :
  createCheckout polar_checkouts_create c w
  = match req_json c with
    | Throw e => (Throw e, w)
    | Normal body =>
        match isValidPlan (get_planId body) with
        | None => (Normal invalid_plan, w)
        | Some plan =>
            if decide (holds_active "poc_user_001" plan w)
            then (Normal already_purchased, w)
            else
              match truthy (env w !! product_variable plan) with
              | None =>
                  (Throw (Error ("Missing product ID for plan: "
                                 +:+ PlanId_to_string plan)), w)
              | Some id =>
                  let w' := with_polarCheckouts
                              (fun calls => calls ++ [checkout_request plan id w]) w in
                  match polar_checkouts_create (polarCheckouts w)
                          (checkout_request plan id w) with
                  | Normal session =>
                      (Normal (c_json (JObj [("url", JStr (url session))]) 200), w')
                  | Throw e => (Throw e, w')
                  end
              end
        end
    end.
Proof.
  unfold createCheckout, mbind, M_bind, settle.
  destruct (req_json c) as [body|]; [|done].
  destruct (isValidPlan (get_planId body)) as [plan|]; [|done].
  rewrite hasPurchasedPlan_run. unfold holds_active.
  destruct (decide (Exists (active_for plan) (purchases_of "poc_user_001" w)))
    as [Hheld|Hheld].
  { by rewrite bool_decide_eq_true_2. }
  rewrite bool_decide_eq_false_2 by done. rewrite getProductId_run.
  destruct (truthy (env w !! product_variable plan)) as [id|]; [|done].
  unfold process_env, gets, polar_checkouts, checkout_request. simpl.
  by destruct (polar_checkouts_create _ _).
Qed.

End CheckoutAnswers.

(** X12.  The checkout endpoint never writes the purchase store, the
    product map or the environment, and it asks the provider for a session
    in one case only: the body names a valid plan, the checkout customer
    does not hold it, and the plan's product id is configured.  Then it
    makes exactly one call, for that product alone, for customer
    [poc_user_001], with the return addresses built on [FRONTEND_URL] (or
    the local default); in every other case the trace of provider calls is
    unchanged. *)
Theorem createCheckout_provider_call
    (polar_checkouts_create : list CheckoutCreate -> CheckoutCreate -> Completion Session)
    (c : Request) (w : World) :
  let w' := exec (createCheckout polar_checkouts_create c) w in
  env w' = env w
  /\ purchaseStore w' = purchaseStore w
  /\ productToPlanMap w' = productToPlanMap w
  /\ (forall body plan id,
        req_json c = Normal body ->
        isValidPlan (get_planId body) = Some plan ->
        ~ holds_active "poc_user_001" plan w ->
        truthy (env w !! product_variable plan) = Some id ->
        polarCheckouts w' = polarCheckouts w ++ [checkout_request plan id w])
  /\ (polarCheckouts w' <> polarCheckouts w ->
      exists body plan id,
        req_json c = Normal body
        /\ isValidPlan (get_planId body) = Some plan
        /\ ~ holds_active "poc_user_001" plan w
        /\ truthy (env w !! product_variable plan) = Some id).
Proof.
  intros w'. subst w'. unfold exec. rewrite createCheckout_run.
  destruct (req_json c) as [body|e] eqn:Hbody.
  2: { split_and!; try done. }
  destruct (isValidPlan (get_planId body)) as [plan|] eqn:Hplan.
  2: { split_and!; try done. all: intros ? ? ? [= <-]; by rewrite Hplan. }
  destruct (decide (holds_active "poc_user_001" plan w)) as [Hheld|Hheld].
  { split_and!; try done.
    all: intros ? ? ? [= <-]; rewrite Hplan; by intros [= <-]. }
  destruct (truthy (env w !! product_variable plan)) as [id|] eqn:Hid.
  2: { split_and!; try done.
       all: intros ? ? ? [= <-]; rewrite Hplan; intros [= <-] _; by rewrite Hid. }
  assert (Hcall : forall body' plan' id',
             Normal body = Normal body' ->
             isValidPlan (get_planId body') = Some plan' ->
             ~ holds_active "poc_user_001" plan' w ->
             truthy (env w !! product_variable plan') = Some id' ->
             polarCheckouts w ++ [checkout_request plan id w]
             = polarCheckouts w ++ [checkout_request plan' id' w]).
  { intros ? ? ? [= <-]. rewrite Hplan. intros [= <-] _. rewrite Hid.
    by intros [= <-]. }
  simpl. destruct (polar_checkouts_create _ _); simpl;
    (split_and!; [done | done | done | exact Hcall |]);
    intros _; by exists body, plan, id.
Qed.

Lemma createCheckout_provider_call_witness :
  let c := Scenario.checkout_of "master" in
  let w := Scenario.poc_user_holds_pro in
  let body := JObj [("planId", JStr "master")] in
  req_json c = Normal body
  /\ isValidPlan (get_planId body) = Some master
  /\ ~ holds_active "poc_user_001" master w
  /\ truthy (env w !! product_variable master) = Some "prod_master"
  /\ polarCheckouts (exec (createCheckout Scenario.provider c) w)
     = polarCheckouts w ++ [checkout_request master "prod_master" w].
Proof.
  intros c w body.
  assert (Hnot : ~ holds_active "poc_user_001" master w).
  { unfold holds_active. vm_compute purchases_of.
    intros [[Hplan _] | Hnil%Exists_nil]%Exists_cons; [discriminate Hplan | done]. }
  split; [reflexivity|]. split; [reflexivity|]. split; [exact Hnot|].
  split; [reflexivity|].
  apply (proj1 (proj2 (proj2 (proj2
           (createCheckout_provider_call Scenario.provider c w)))) body master
           "prod_master"); [reflexivity | reflexivity | exact Hnot | reflexivity].
Defined.

(** X13.  How a checkout request fails.  A body that is not JSON makes the
    endpoint throw what [c.req.json()] rejected with; a body whose [planId]
    is not the string ["pro"] or ["master"] (absent, [null], another type,
    another string) is answered 400 "Invalid plan selected"; a valid plan
    whose product id is unset or empty makes it throw
    [Error("Missing product ID for plan: <plan>")]: all three before any
    provider call, leaving the world unchanged.  When the provider rejects,
    its exception is thrown on and the call stays in the trace. *)
Theorem createCheckout_failures
    (polar_checkouts_create : list CheckoutCreate -> CheckoutCreate -> Completion Session)
    (c : Request) (w : World) :
  (forall e,
      req_json c = Throw e ->
      createCheckout polar_checkouts_create c w = (Throw e, w))
  /\ (forall body,
        req_json c = Normal body ->
        get_planId body <> Some (JStr "pro") ->
        get_planId body <> Some (JStr "master") ->
        createCheckout polar_checkouts_create c w = (Normal invalid_plan, w))
  /\ (forall body plan,
        req_json c = Normal body ->
        get_planId body = Some (JStr (PlanId_to_string plan)) ->
        ~ holds_active "poc_user_001" plan w ->
        truthy (env w !! product_variable plan) = None ->
        createCheckout polar_checkouts_create c w
        = (Throw (Error ("Missing product ID for plan: " +:+ PlanId_to_string plan)), w))
  /\ (forall body plan id e,
        req_json c = Normal body ->
        get_planId body = Some (JStr (PlanId_to_string plan)) ->
        ~ holds_active "poc_user_001" plan w ->
        truthy (env w !! product_variable plan) = Some id ->
        polar_checkouts_create (polarCheckouts w) (checkout_request plan id w) = Throw e ->
        createCheckout polar_checkouts_create c w
        = (Throw e,
           with_polarCheckouts (fun calls => calls ++ [checkout_request plan id w]) w)).
Proof.
  split_and!.
  - intros e Hbody. by rewrite createCheckout_run, Hbody.
  - intros body Hbody Hpro Hmaster. rewrite createCheckout_run, Hbody.
    destruct (isValidPlan (get_planId body)) as [plan|] eqn:Hplan; [|done].
    apply isValidPlan_exact_1 in Hplan. by destruct plan.
  - intros body plan Hbody Hplan Hheld Hid. rewrite createCheckout_run, Hbody.
    rewrite (isValidPlan_exact_2 _ _ Hplan), decide_False by done. by rewrite Hid.
  - intros body plan id e Hbody Hplan Hheld Hid Hthrow.
    rewrite createCheckout_run, Hbody.
    rewrite (isValidPlan_exact_2 _ _ Hplan), decide_False by done.
    rewrite Hid. simpl. by rewrite Hthrow.
Qed.

Lemma createCheckout_failures_witness :
  let w := Scenario.started in
  let c := mkRequest "" ∅ (Normal (JObj [("planId", JStr "Pro")])) ∅ in
  req_json c = Normal (JObj [("planId", JStr "Pro")])
  /\ get_planId (JObj [("planId", JStr "Pro")]) <> Some (JStr "pro")
  /\ get_planId (JObj [("planId", JStr "Pro")]) <> Some (JStr "master")
  /\ createCheckout Scenario.provider c w = (Normal invalid_plan, w).
Proof.
  intros w c. split; [reflexivity|]. split; [discriminate|]. split; [discriminate|].
  apply (proj1 (proj2 (createCheckout_failures Scenario.provider c w))
           (JObj [("planId", JStr "Pro")])); [reflexivity | discriminate | discriminate].
Defined.

(** ** The endpoints and the service together *)

(** X14.  The product the checkout asks the provider for is the one the
    webhook side resolves back to the plan: once [initProductPlanMapping]
    has run, the id [getProductId] returns for a plan resolves to that plan
    in the product to plan map, provided the two plans are configured with
    different product ids.  Configured with one id for both, the pro
    checkout's product resolves to [master]. *)
Theorem checkout_product_resolves w plan id :
  let w' := exec initProductPlanMapping w in
  getProductId plan w' = (Normal id, w') ->
  (env w !! "POLAR_PRO_PRODUCT_ID" <> env w !! "POLAR_MASTER_PRODUCT_ID" ->
   productToPlanMap w' !! id = Some plan)
  /\ (env w !! "POLAR_PRO_PRODUCT_ID" = env w !! "POLAR_MASTER_PRODUCT_ID" ->
      productToPlanMap w' !! id = Some master).
Proof.
  intros w'. subst w'. rewrite getProductId_run, initProductPlanMapping_env.
  destruct (truthy (env w !! product_variable plan)) as [id'|] eqn:Hid; [|done].
  intros [= ->]. rewrite initProductPlanMapping_lookup.
  pose proof (proj1 (truthy_Some _ _) Hid) as [Hvar Hne].
  split.
  - intros Hdiff. destruct plan; simpl in *.
    + rewrite decide_False, decide_True; [done..|].
      intros [Hm _]%truthy_Some. apply Hdiff. by rewrite Hvar, Hm.
    + by rewrite decide_True.
  - intros Hsame. rewrite decide_True; [done|].
    destruct plan; simpl in *; [|done]. by rewrite <- Hsame.
Qed.

Lemma checkout_product_resolves_witness :
  let w := fresh Scenario.deployment in
  let w' := exec initProductPlanMapping w in
  getProductId pro w' = (Normal "prod_pro", w')
  /\ env w !! "POLAR_PRO_PRODUCT_ID" <> env w !! "POLAR_MASTER_PRODUCT_ID"
  /\ productToPlanMap w' !! "prod_pro" = Some pro.
Proof.
  intros w w'. split; [reflexivity|].
  assert (Hdiff : env w !! "POLAR_PRO_PRODUCT_ID" <> env w !! "POLAR_MASTER_PRODUCT_ID")
    by (vm_compute; discriminate).
  split; [exact Hdiff|].
  apply (proj1 (checkout_product_resolves w pro "prod_pro" eq_refl) Hdiff).
Defined.

(** X15.  Revocation reopens the checkout.  In every world of a running
    process, once the checkout customer's plan has been revoked, a checkout
    request for that plan is no longer refused: with the plan's product
    configured and the provider answering with a session, the endpoint
    makes the provider call and answers 200 with the session's address. *)
Theorem checkout_after_revocation
    (polar_checkouts_create : list CheckoutCreate -> CheckoutCreate -> Completion Session)
    (c : Request) (w : World) (body : Json) (plan : PlanId) (id : string)
    (session : Session) :
  reachable w ->
  req_json c = Normal body ->
  get_planId body = Some (JStr (PlanId_to_string plan)) ->
  truthy (env w !! product_variable plan) = Some id ->
  let cleared := exec (revokePurchase "poc_user_001" plan) w in
  polar_checkouts_create (polarCheckouts cleared) (checkout_request plan id cleared)
  = Normal session ->
  createCheckout polar_checkouts_create c cleared
  = (Normal (c_json (JObj [("url", JStr (url session))]) 200),
     with_polarCheckouts (fun calls => calls ++ [checkout_request plan id cleared])
       cleared).
Proof.
  intros Hw Hbody Hplan Hid cleared Hsession.
  assert (Hnone : ~ holds_active "poc_user_001" plan cleared).
  { apply (proj2 (not_Exists_filter_nil _ _)).
    by apply revokePurchase_clears, reachable_at_most_one_active. }
  assert (Henv : env cleared = env w)
    by apply (call_env (RevokePurchase "poc_user_001" plan)).
  rewrite createCheckout_run, Hbody.
  rewrite (isValidPlan_exact_2 _ _ Hplan), decide_False by done.
  rewrite Henv, Hid. simpl. by rewrite Hsession.
Qed.

Lemma checkout_after_revocation_witness :
  let w := Scenario.poc_user_holds_pro in
  let c := Scenario.checkout_of "pro" in
  let cleared := exec (revokePurchase "poc_user_001" pro) w in
  reachable w
  /\ createCheckout Scenario.provider c w = (Normal already_purchased, w)
  /\ createCheckout Scenario.provider c cleared
     = (Normal (c_json (JObj [("url", JStr "https://polar.example/checkout")]) 200),
        with_polarCheckouts
          (fun calls => calls ++ [checkout_request pro "prod_pro" cleared]) cleared).
Proof.
  intros w c cleared. split; [apply poc_user_holds_pro_reachable|].
  split; [reflexivity|].
  apply (checkout_after_revocation Scenario.provider c w
           (JObj [("planId", JStr "pro")]) pro "prod_pro"
           (mkSession "https://polar.example/checkout")
           poc_user_holds_pro_reachable); reflexivity.
Defined.

(** X16.  The purchases route and the checkout gate agree.  For the
    checkout customer, a plan is in the [purchasedPlans] array that the
    purchases route answers with exactly when a checkout request for that
    plan is refused as already purchased; the route answers 200 and writes
    nothing, and for a customer without records the array is empty. *)
Theorem purchases_route_agrees_with_gate
    (polar_checkouts_create : list CheckoutCreate -> CheckoutCreate -> Completion Session)
    (query checkout : Request) (w : World) (body : Json) (plan : PlanId) :
  req_param query !! "customerId" = Some "poc_user_001" ->
  req_json checkout = Normal body ->
  get_planId body = Some (JStr (PlanId_to_string plan)) ->
  exists purchasedPlans,
    purchasesRoute query w
    = (Normal (c_json (JObj [("customerId", JStr "poc_user_001");
                             ("purchasedPlans", JArr purchasedPlans)]) 200), w)
    /\ (JStr (PlanId_to_string plan) ∈ purchasedPlans <->
        createCheckout polar_checkouts_create checkout w
        = (Normal already_purchased, w))
    /\ (purchaseStore w !! "poc_user_001" = None -> purchasedPlans = []).
Proof.
  intros Hquery Hbody Hplan. eexists. split; [by apply purchasesRoute_run|].
  split.
  - rewrite createCheckout_run, Hbody, (isValidPlan_exact_2 _ _ Hplan).
    rewrite list_elem_of_fmap. split.
    + intros (q & Hq & Hin). rewrite decide_True; [done|].
      apply holds_active_listed.
      assert (q = plan) as -> by (injection Hq; by destruct plan, q). done.
    + destruct (decide (holds_active "poc_user_001" plan w)) as [Hheld|Hheld].
      * intros _. exists plan. split; [done|]. by apply holds_active_listed.
      * destruct (truthy (env w !! product_variable plan)); [|done].
        simpl. by destruct (polar_checkouts_create _ _).
  - intros Hnone. unfold records_in_status, purchases_of. by rewrite Hnone.
Qed.

Lemma purchases_route_agrees_with_gate_witness :
  let w := Scenario.poc_user_holds_pro in
  let query := mkRequest "" ∅ (Throw (OtherException "SyntaxError"))
                 (<["customerId" := "poc_user_001"]> ∅) in
  let checkout := Scenario.checkout_of "pro" in
  req_param query !! "customerId" = Some "poc_user_001"
  /\ exists purchasedPlans,
       purchasesRoute query w
       = (Normal (c_json (JObj [("customerId", JStr "poc_user_001");
                                ("purchasedPlans", JArr purchasedPlans)]) 200), w)
       /\ (JStr (PlanId_to_string pro) ∈ purchasedPlans <->
           createCheckout Scenario.provider checkout w
           = (Normal already_purchased, w))
       /\ (purchaseStore w !! "poc_user_001" = None -> purchasedPlans = []).
Proof.
  intros w query checkout. split; [reflexivity|].
  apply (purchases_route_agrees_with_gate Scenario.provider query checkout w
           (JObj [("planId", JStr "pro")]) pro); reflexivity.
Defined.
